(** * KTX2 lite transcoder (UASTC to RGBA, unorm) and image processing configuration

    A shallow embedding of
    - [ImageProcessingConfiguration] (the guarded property setters), and
    - [LiteTranscoder_UASTC_RGBA_UNORM] (capability check, initialisation and
      the promise-based [transcode]),
    with the properties the specification states about them. *)

From Stdlib Require Import ZArith Bool List PrimFloat.
From Stdlib.Strings Require Byte.
From stdpp Require Import base option list gmap strings.

Open Scope Z_scope.

(** * Part I: ImageProcessingConfiguration *)

Module ImageProcessing.

(** JavaScript values met in the class: [number] is an IEEE 754 binary64,
    object references are compared by identity, and a field declared without
    an initialiser reads as [undefined]. *)
Definition number : Type := float.

Definition ObjRef : Type := positive.

Inductive Nullable (A : Type) : Type :=
  | js_undefined
  | js_null
  | js_obj (a : A).
Arguments js_undefined {A}.
Arguments js_null {A}.
Arguments js_obj {A} a.

(** [a === b] on [Nullable<object>]: same tag and same identity. *)
Definition same_reference (a b : Nullable ObjRef) : bool :=
  match a, b with
  | js_undefined, js_undefined => true
  | js_null, js_null => true
  | js_obj x, js_obj y => Pos.eqb x y
  | _, _ => false
  end.

Record Color4 : Type := mkColor4 { r : number; g : number; b : number; a : number }.

(** [TONEMAPPING_STANDARD], [TONEMAPPING_ACES], [_VIGNETTEMODE_MULTIPLY],
    [_VIGNETTEMODE_OPAQUE] *)
Definition TONEMAPPING_STANDARD : number := 0%float.
Definition TONEMAPPING_ACES : number := 1%float.
Definition VIGNETTEMODE_MULTIPLY : number := 0%float.
Definition VIGNETTEMODE_OPAQUE : number := 1%float.

(** The data fields of the class, in declaration order. *)
Record ImageProcessingConfiguration : Type := mkConfiguration {
  colorCurves : Nullable ObjRef;
  _colorCurvesEnabled : bool;
  _colorGradingTexture : Nullable ObjRef;
  _colorGradingEnabled : bool;
  _colorGradingWithGreenDepth : bool;
  _colorGradingBGR : bool;
  _exposure : number;
  _toneMappingEnabled : bool;
  _toneMappingType : number;
  _contrast : number;
  vignetteStretch : number;
  vignetteCenterX : number;
  vignetteCenterY : number;
  vignetteWeight : number;
  vignetteColor : Color4;
  vignetteCameraFov : number;
  _vignetteBlendMode : number;
  _vignetteEnabled : bool;
  _ditheringEnabled : bool;
  _ditheringIntensity : number;
  _skipFinalColorClamp : bool;
  _applyByPostProcess : bool;
  _isEnabled : bool;
}.

(** [new ImageProcessingConfiguration()]: the field initialisers.
    [curves] is the identity of the [new ColorCurves()] object;
    [_colorGradingTexture] has no initialiser. *)
Definition new_ImageProcessingConfiguration (curves : ObjRef) : ImageProcessingConfiguration :=
  {| colorCurves := js_obj curves;
     _colorCurvesEnabled := false;
     _colorGradingTexture := js_undefined;
     _colorGradingEnabled := false;
     _colorGradingWithGreenDepth := true;
     _colorGradingBGR := true;
     _exposure := 1%float;
     _toneMappingEnabled := false;
     _toneMappingType := TONEMAPPING_STANDARD;
     _contrast := 1%float;
     vignetteStretch := 0%float;
     vignetteCenterX := 0%float;
     vignetteCenterY := 0%float;
     vignetteWeight := 1.5%float;
     vignetteColor := mkColor4 0%float 0%float 0%float 0%float;
     vignetteCameraFov := 0.5%float;
     _vignetteBlendMode := VIGNETTEMODE_MULTIPLY;
     _vignetteEnabled := false;
     _ditheringEnabled := false;
     _ditheringIntensity := (1 / 255)%float;
     _skipFinalColorClamp := false;
     _applyByPostProcess := false;
     _isEnabled := true |}.

(** The object together with its [onUpdateParameters] observable.  The
    [Observable] class lives in Misc/observable; the only thing the setters
    do with it is [notifyObservers(this)], and every such call is recorded,
    in order, with the configuration the observers are handed. *)
Record World : Type := mkWorld {
  this : ImageProcessingConfiguration;
  notified : list ImageProcessingConfiguration;
}.

Definition store (c : ImageProcessingConfiguration) (w : World) : World :=
  {| this := c; notified := notified w |}.

(** [_updateParameters()]: [this.onUpdateParameters.notifyObservers(this)] *)
Definition _updateParameters (w : World) : World :=
  {| this := this w; notified := notified w ++ [this w] |}.

(** Getters. *)
Definition colorCurvesEnabled (c : ImageProcessingConfiguration) : bool := _colorCurvesEnabled c.
Definition colorGradingTexture (c : ImageProcessingConfiguration) : Nullable ObjRef := _colorGradingTexture c.
Definition colorGradingEnabled (c : ImageProcessingConfiguration) : bool := _colorGradingEnabled c.
Definition colorGradingWithGreenDepth (c : ImageProcessingConfiguration) : bool := _colorGradingWithGreenDepth c.
Definition colorGradingBGR (c : ImageProcessingConfiguration) : bool := _colorGradingBGR c.
Definition exposure (c : ImageProcessingConfiguration) : number := _exposure c.
Definition toneMappingEnabled (c : ImageProcessingConfiguration) : bool := _toneMappingEnabled c.
Definition toneMappingType (c : ImageProcessingConfiguration) : number := _toneMappingType c.
Definition contrast (c : ImageProcessingConfiguration) : number := _contrast c.
Definition vignetteBlendMode (c : ImageProcessingConfiguration) : number := _vignetteBlendMode c.
Definition vignetteEnabled (c : ImageProcessingConfiguration) : bool := _vignetteEnabled c.
Definition ditheringEnabled (c : ImageProcessingConfiguration) : bool := _ditheringEnabled c.
Definition ditheringIntensity (c : ImageProcessingConfiguration) : number := _ditheringIntensity c.
Definition skipFinalColorClamp (c : ImageProcessingConfiguration) : bool := _skipFinalColorClamp c.
Definition applyByPostProcess (c : ImageProcessingConfiguration) : bool := _applyByPostProcess c.
Definition isEnabled (c : ImageProcessingConfiguration) : bool := _isEnabled c.

(** The assignments [this._f = value] of the setters: one field is replaced, the others are carried over. *)
Definition write__colorCurvesEnabled (value : bool) (c : ImageProcessingConfiguration) : ImageProcessingConfiguration :=
  let '(mkConfiguration x0 x1 x2 x3 x4 x5 x6 x7 x8 x9 x10 x11 x12 x13 x14 x15 x16 x17 x18 x19 x20 x21 x22) := c in
  mkConfiguration x0 value x2 x3 x4 x5 x6 x7 x8 x9 x10 x11 x12 x13 x14 x15 x16 x17 x18 x19 x20 x21 x22.
Definition write__colorGradingTexture (value : Nullable ObjRef) (c : ImageProcessingConfiguration) : ImageProcessingConfiguration :=
  let '(mkConfiguration x0 x1 x2 x3 x4 x5 x6 x7 x8 x9 x10 x11 x12 x13 x14 x15 x16 x17 x18 x19 x20 x21 x22) := c in
  mkConfiguration x0 x1 value x3 x4 x5 x6 x7 x8 x9 x10 x11 x12 x13 x14 x15 x16 x17 x18 x19 x20 x21 x22.
Definition write__colorGradingEnabled (value : bool) (c : ImageProcessingConfiguration) : ImageProcessingConfiguration :=
  let '(mkConfiguration x0 x1 x2 x3 x4 x5 x6 x7 x8 x9 x10 x11 x12 x13 x14 x15 x16 x17 x18 x19 x20 x21 x22) := c in
  mkConfiguration x0 x1 x2 value x4 x5 x6 x7 x8 x9 x10 x11 x12 x13 x14 x15 x16 x17 x18 x19 x20 x21 x22.
Definition write__colorGradingWithGreenDepth (value : bool) (c : ImageProcessingConfiguration) : ImageProcessingConfiguration :=
  let '(mkConfiguration x0 x1 x2 x3 x4 x5 x6 x7 x8 x9 x10 x11 x12 x13 x14 x15 x16 x17 x18 x19 x20 x21 x22) := c in
  mkConfiguration x0 x1 x2 x3 value x5 x6 x7 x8 x9 x10 x11 x12 x13 x14 x15 x16 x17 x18 x19 x20 x21 x22.
Definition write__colorGradingBGR (value : bool) (c : ImageProcessingConfiguration) : ImageProcessingConfiguration :=
  let '(mkConfiguration x0 x1 x2 x3 x4 x5 x6 x7 x8 x9 x10 x11 x12 x13 x14 x15 x16 x17 x18 x19 x20 x21 x22) := c in
  mkConfiguration x0 x1 x2 x3 x4 value x6 x7 x8 x9 x10 x11 x12 x13 x14 x15 x16 x17 x18 x19 x20 x21 x22.
Definition write__exposure (value : number) (c : ImageProcessingConfiguration) : ImageProcessingConfiguration :=
  let '(mkConfiguration x0 x1 x2 x3 x4 x5 x6 x7 x8 x9 x10 x11 x12 x13 x14 x15 x16 x17 x18 x19 x20 x21 x22) := c in
  mkConfiguration x0 x1 x2 x3 x4 x5 value x7 x8 x9 x10 x11 x12 x13 x14 x15 x16 x17 x18 x19 x20 x21 x22.
Definition write__toneMappingEnabled (value : bool) (c : ImageProcessingConfiguration) : ImageProcessingConfiguration :=
  let '(mkConfiguration x0 x1 x2 x3 x4 x5 x6 x7 x8 x9 x10 x11 x12 x13 x14 x15 x16 x17 x18 x19 x20 x21 x22) := c in
  mkConfiguration x0 x1 x2 x3 x4 x5 x6 value x8 x9 x10 x11 x12 x13 x14 x15 x16 x17 x18 x19 x20 x21 x22.
Definition write__toneMappingType (value : number) (c : ImageProcessingConfiguration) : ImageProcessingConfiguration :=
  let '(mkConfiguration x0 x1 x2 x3 x4 x5 x6 x7 x8 x9 x10 x11 x12 x13 x14 x15 x16 x17 x18 x19 x20 x21 x22) := c in
  mkConfiguration x0 x1 x2 x3 x4 x5 x6 x7 value x9 x10 x11 x12 x13 x14 x15 x16 x17 x18 x19 x20 x21 x22.
Definition write__contrast (value : number) (c : ImageProcessingConfiguration) : ImageProcessingConfiguration :=
  let '(mkConfiguration x0 x1 x2 x3 x4 x5 x6 x7 x8 x9 x10 x11 x12 x13 x14 x15 x16 x17 x18 x19 x20 x21 x22) := c in
  mkConfiguration x0 x1 x2 x3 x4 x5 x6 x7 x8 value x10 x11 x12 x13 x14 x15 x16 x17 x18 x19 x20 x21 x22.
Definition write__vignetteBlendMode (value : number) (c : ImageProcessingConfiguration) : ImageProcessingConfiguration :=
  let '(mkConfiguration x0 x1 x2 x3 x4 x5 x6 x7 x8 x9 x10 x11 x12 x13 x14 x15 x16 x17 x18 x19 x20 x21 x22) := c in
  mkConfiguration x0 x1 x2 x3 x4 x5 x6 x7 x8 x9 x10 x11 x12 x13 x14 x15 value x17 x18 x19 x20 x21 x22.
Definition write__vignetteEnabled (value : bool) (c : ImageProcessingConfiguration) : ImageProcessingConfiguration :=
  let '(mkConfiguration x0 x1 x2 x3 x4 x5 x6 x7 x8 x9 x10 x11 x12 x13 x14 x15 x16 x17 x18 x19 x20 x21 x22) := c in
  mkConfiguration x0 x1 x2 x3 x4 x5 x6 x7 x8 x9 x10 x11 x12 x13 x14 x15 x16 value x18 x19 x20 x21 x22.
Definition write__ditheringEnabled (value : bool) (c : ImageProcessingConfiguration) : ImageProcessingConfiguration :=
  let '(mkConfiguration x0 x1 x2 x3 x4 x5 x6 x7 x8 x9 x10 x11 x12 x13 x14 x15 x16 x17 x18 x19 x20 x21 x22) := c in
  mkConfiguration x0 x1 x2 x3 x4 x5 x6 x7 x8 x9 x10 x11 x12 x13 x14 x15 x16 x17 value x19 x20 x21 x22.
Definition write__ditheringIntensity (value : number) (c : ImageProcessingConfiguration) : ImageProcessingConfiguration :=
  let '(mkConfiguration x0 x1 x2 x3 x4 x5 x6 x7 x8 x9 x10 x11 x12 x13 x14 x15 x16 x17 x18 x19 x20 x21 x22) := c in
  mkConfiguration x0 x1 x2 x3 x4 x5 x6 x7 x8 x9 x10 x11 x12 x13 x14 x15 x16 x17 x18 value x20 x21 x22.
Definition write__skipFinalColorClamp (value : bool) (c : ImageProcessingConfiguration) : ImageProcessingConfiguration :=
  let '(mkConfiguration x0 x1 x2 x3 x4 x5 x6 x7 x8 x9 x10 x11 x12 x13 x14 x15 x16 x17 x18 x19 x20 x21 x22) := c in
  mkConfiguration x0 x1 x2 x3 x4 x5 x6 x7 x8 x9 x10 x11 x12 x13 x14 x15 x16 x17 x18 x19 value x21 x22.
Definition write__applyByPostProcess (value : bool) (c : ImageProcessingConfiguration) : ImageProcessingConfiguration :=
  let '(mkConfiguration x0 x1 x2 x3 x4 x5 x6 x7 x8 x9 x10 x11 x12 x13 x14 x15 x16 x17 x18 x19 x20 x21 x22) := c in
  mkConfiguration x0 x1 x2 x3 x4 x5 x6 x7 x8 x9 x10 x11 x12 x13 x14 x15 x16 x17 x18 x19 x20 value x22.
Definition write__isEnabled (value : bool) (c : ImageProcessingConfiguration) : ImageProcessingConfiguration :=
  let '(mkConfiguration x0 x1 x2 x3 x4 x5 x6 x7 x8 x9 x10 x11 x12 x13 x14 x15 x16 x17 x18 x19 x20 x21 x22) := c in
  mkConfiguration x0 x1 x2 x3 x4 x5 x6 x7 x8 x9 x10 x11 x12 x13 x14 x15 x16 x17 x18 x19 x20 x21 value.

(** Setters.  Each one returns early when the backing field [===] the new
    value, and otherwise assigns the field and calls [_updateParameters]. *)
(** [set colorCurvesEnabled(value)] *)
Definition set_colorCurvesEnabled (value : bool) (w : World) : World :=
  if Bool.eqb (_colorCurvesEnabled (this w)) value then w
  else _updateParameters (store (write__colorCurvesEnabled value (this w)) w).

(** [set colorGradingTexture(value)] *)
Definition set_colorGradingTexture (value : Nullable ObjRef) (w : World) : World :=
  if same_reference (_colorGradingTexture (this w)) value then w
  else _updateParameters (store (write__colorGradingTexture value (this w)) w).

(** [set colorGradingEnabled(value)] *)
Definition set_colorGradingEnabled (value : bool) (w : World) : World :=
  if Bool.eqb (_colorGradingEnabled (this w)) value then w
  else _updateParameters (store (write__colorGradingEnabled value (this w)) w).

(** [set colorGradingWithGreenDepth(value)] *)
Definition set_colorGradingWithGreenDepth (value : bool) (w : World) : World :=
  if Bool.eqb (_colorGradingWithGreenDepth (this w)) value then w
  else _updateParameters (store (write__colorGradingWithGreenDepth value (this w)) w).

(** [set colorGradingBGR(value)] *)
Definition set_colorGradingBGR (value : bool) (w : World) : World :=
  if Bool.eqb (_colorGradingBGR (this w)) value then w
  else _updateParameters (store (write__colorGradingBGR value (this w)) w).

(** [set exposure(value)] *)
Definition set_exposure (value : number) (w : World) : World :=
  if PrimFloat.eqb (_exposure (this w)) value then w
  else _updateParameters (store (write__exposure value (this w)) w).

(** [set toneMappingEnabled(value)] *)
Definition set_toneMappingEnabled (value : bool) (w : World) : World :=
  if Bool.eqb (_toneMappingEnabled (this w)) value then w
  else _updateParameters (store (write__toneMappingEnabled value (this w)) w).

(** [set toneMappingType(value)] *)
Definition set_toneMappingType (value : number) (w : World) : World :=
  if PrimFloat.eqb (_toneMappingType (this w)) value then w
  else _updateParameters (store (write__toneMappingType value (this w)) w).

(** [set contrast(value)] *)
Definition set_contrast (value : number) (w : World) : World :=
  if PrimFloat.eqb (_contrast (this w)) value then w
  else _updateParameters (store (write__contrast value (this w)) w).

(** [set vignetteBlendMode(value)] *)
Definition set_vignetteBlendMode (value : number) (w : World) : World :=
  if PrimFloat.eqb (_vignetteBlendMode (this w)) value then w
  else _updateParameters (store (write__vignetteBlendMode value (this w)) w).

(** [set vignetteEnabled(value)] *)
Definition set_vignetteEnabled (value : bool) (w : World) : World :=
  if Bool.eqb (_vignetteEnabled (this w)) value then w
  else _updateParameters (store (write__vignetteEnabled value (this w)) w).

(** [set ditheringEnabled(value)] *)
Definition set_ditheringEnabled (value : bool) (w : World) : World :=
  if Bool.eqb (_ditheringEnabled (this w)) value then w
  else _updateParameters (store (write__ditheringEnabled value (this w)) w).

(** [set ditheringIntensity(value)] *)
Definition set_ditheringIntensity (value : number) (w : World) : World :=
  if PrimFloat.eqb (_ditheringIntensity (this w)) value then w
  else _updateParameters (store (write__ditheringIntensity value (this w)) w).

(** [set skipFinalColorClamp(value)] *)
Definition set_skipFinalColorClamp (value : bool) (w : World) : World :=
  if Bool.eqb (_skipFinalColorClamp (this w)) value then w
  else _updateParameters (store (write__skipFinalColorClamp value (this w)) w).

(** [set applyByPostProcess(value)] *)
Definition set_applyByPostProcess (value : bool) (w : World) : World :=
  if Bool.eqb (_applyByPostProcess (this w)) value then w
  else _updateParameters (store (write__applyByPostProcess value (this w)) w).

(** [set isEnabled(value)] *)
Definition set_isEnabled (value : bool) (w : World) : World :=
  if Bool.eqb (_isEnabled (this w)) value then w
  else _updateParameters (store (write__isEnabled value (this w)) w).

(** One constructor per guarded property: the assignment [c.p = value]. *)
Inductive Assignment : Type :=
  | Set_colorCurvesEnabled (value : bool)
  | Set_colorGradingTexture (value : Nullable ObjRef)
  | Set_colorGradingEnabled (value : bool)
  | Set_colorGradingWithGreenDepth (value : bool)
  | Set_colorGradingBGR (value : bool)
  | Set_exposure (value : number)
  | Set_toneMappingEnabled (value : bool)
  | Set_toneMappingType (value : number)
  | Set_contrast (value : number)
  | Set_vignetteBlendMode (value : number)
  | Set_vignetteEnabled (value : bool)
  | Set_ditheringEnabled (value : bool)
  | Set_ditheringIntensity (value : number)
  | Set_skipFinalColorClamp (value : bool)
  | Set_applyByPostProcess (value : bool)
  | Set_isEnabled (value : bool).

Definition assign (a : Assignment) : World -> World :=
  match a with
  | Set_colorCurvesEnabled value => set_colorCurvesEnabled value
  | Set_colorGradingTexture value => set_colorGradingTexture value
  | Set_colorGradingEnabled value => set_colorGradingEnabled value
  | Set_colorGradingWithGreenDepth value => set_colorGradingWithGreenDepth value
  | Set_colorGradingBGR value => set_colorGradingBGR value
  | Set_exposure value => set_exposure value
  | Set_toneMappingEnabled value => set_toneMappingEnabled value
  | Set_toneMappingType value => set_toneMappingType value
  | Set_contrast value => set_contrast value
  | Set_vignetteBlendMode value => set_vignetteBlendMode value
  | Set_vignetteEnabled value => set_vignetteEnabled value
  | Set_ditheringEnabled value => set_ditheringEnabled value
  | Set_ditheringIntensity value => set_ditheringIntensity value
  | Set_skipFinalColorClamp value => set_skipFinalColorClamp value
  | Set_applyByPostProcess value => set_applyByPostProcess value
  | Set_isEnabled value => set_isEnabled value
  end.

(** The members of the object, and a universal type for what they hold. *)
Inductive JsValue : Type :=
  | JsBool (b : bool)
  | JsNumber (n : number)
  | JsRef (o : Nullable ObjRef)
  | JsColor (c : Color4).

Inductive Member : Type :=
  | M_colorCurves
  | M_colorCurvesEnabled
  | M_colorGradingTexture
  | M_colorGradingEnabled
  | M_colorGradingWithGreenDepth
  | M_colorGradingBGR
  | M_exposure
  | M_toneMappingEnabled
  | M_toneMappingType
  | M_contrast
  | M_vignetteStretch
  | M_vignetteCenterX
  | M_vignetteCenterY
  | M_vignetteWeight
  | M_vignetteColor
  | M_vignetteCameraFov
  | M_vignetteBlendMode
  | M_vignetteEnabled
  | M_ditheringEnabled
  | M_ditheringIntensity
  | M_skipFinalColorClamp
  | M_applyByPostProcess
  | M_isEnabled.

Definition read (m : Member) (c : ImageProcessingConfiguration) : JsValue :=
  match m with
  | M_colorCurves => JsRef (colorCurves c)
  | M_colorCurvesEnabled => JsBool (_colorCurvesEnabled c)
  | M_colorGradingTexture => JsRef (_colorGradingTexture c)
  | M_colorGradingEnabled => JsBool (_colorGradingEnabled c)
  | M_colorGradingWithGreenDepth => JsBool (_colorGradingWithGreenDepth c)
  | M_colorGradingBGR => JsBool (_colorGradingBGR c)
  | M_exposure => JsNumber (_exposure c)
  | M_toneMappingEnabled => JsBool (_toneMappingEnabled c)
  | M_toneMappingType => JsNumber (_toneMappingType c)
  | M_contrast => JsNumber (_contrast c)
  | M_vignetteStretch => JsNumber (vignetteStretch c)
  | M_vignetteCenterX => JsNumber (vignetteCenterX c)
  | M_vignetteCenterY => JsNumber (vignetteCenterY c)
  | M_vignetteWeight => JsNumber (vignetteWeight c)
  | M_vignetteColor => JsColor (vignetteColor c)
  | M_vignetteCameraFov => JsNumber (vignetteCameraFov c)
  | M_vignetteBlendMode => JsNumber (_vignetteBlendMode c)
  | M_vignetteEnabled => JsBool (_vignetteEnabled c)
  | M_ditheringEnabled => JsBool (_ditheringEnabled c)
  | M_ditheringIntensity => JsNumber (_ditheringIntensity c)
  | M_skipFinalColorClamp => JsBool (_skipFinalColorClamp c)
  | M_applyByPostProcess => JsBool (_applyByPostProcess c)
  | M_isEnabled => JsBool (_isEnabled c)
  end.

Definition backing (a : Assignment) : Member :=
  match a with
  | Set_colorCurvesEnabled _ => M_colorCurvesEnabled
  | Set_colorGradingTexture _ => M_colorGradingTexture
  | Set_colorGradingEnabled _ => M_colorGradingEnabled
  | Set_colorGradingWithGreenDepth _ => M_colorGradingWithGreenDepth
  | Set_colorGradingBGR _ => M_colorGradingBGR
  | Set_exposure _ => M_exposure
  | Set_toneMappingEnabled _ => M_toneMappingEnabled
  | Set_toneMappingType _ => M_toneMappingType
  | Set_contrast _ => M_contrast
  | Set_vignetteBlendMode _ => M_vignetteBlendMode
  | Set_vignetteEnabled _ => M_vignetteEnabled
  | Set_ditheringEnabled _ => M_ditheringEnabled
  | Set_ditheringIntensity _ => M_ditheringIntensity
  | Set_skipFinalColorClamp _ => M_skipFinalColorClamp
  | Set_applyByPostProcess _ => M_applyByPostProcess
  | Set_isEnabled _ => M_isEnabled
  end.

Definition assigned (a : Assignment) : JsValue :=
  match a with
  | Set_colorCurvesEnabled value => JsBool value
  | Set_colorGradingTexture value => JsRef value
  | Set_colorGradingEnabled value => JsBool value
  | Set_colorGradingWithGreenDepth value => JsBool value
  | Set_colorGradingBGR value => JsBool value
  | Set_exposure value => JsNumber value
  | Set_toneMappingEnabled value => JsBool value
  | Set_toneMappingType value => JsNumber value
  | Set_contrast value => JsNumber value
  | Set_vignetteBlendMode value => JsNumber value
  | Set_vignetteEnabled value => JsBool value
  | Set_ditheringEnabled value => JsBool value
  | Set_ditheringIntensity value => JsNumber value
  | Set_skipFinalColorClamp value => JsBool value
  | Set_applyByPostProcess value => JsBool value
  | Set_isEnabled value => JsBool value
  end.

(** [strict_equal x y] is [x === y]. *)
Definition strict_equal (x y : JsValue) : bool :=
  match x, y with
  | JsBool p, JsBool q => Bool.eqb p q
  | JsNumber p, JsNumber q => PrimFloat.eqb p q
  | JsRef p, JsRef q => same_reference p q
  | _, _ => false
  end.

Definition Member_eqb (m n : Member) : bool :=
  match m, n with
  | M_colorCurves, M_colorCurves => true
  | M_colorCurvesEnabled, M_colorCurvesEnabled => true
  | M_colorGradingTexture, M_colorGradingTexture => true
  | M_colorGradingEnabled, M_colorGradingEnabled => true
  | M_colorGradingWithGreenDepth, M_colorGradingWithGreenDepth => true
  | M_colorGradingBGR, M_colorGradingBGR => true
  | M_exposure, M_exposure => true
  | M_toneMappingEnabled, M_toneMappingEnabled => true
  | M_toneMappingType, M_toneMappingType => true
  | M_contrast, M_contrast => true
  | M_vignetteStretch, M_vignetteStretch => true
  | M_vignetteCenterX, M_vignetteCenterX => true
  | M_vignetteCenterY, M_vignetteCenterY => true
  | M_vignetteWeight, M_vignetteWeight => true
  | M_vignetteColor, M_vignetteColor => true
  | M_vignetteCameraFov, M_vignetteCameraFov => true
  | M_vignetteBlendMode, M_vignetteBlendMode => true
  | M_vignetteEnabled, M_vignetteEnabled => true
  | M_ditheringEnabled, M_ditheringEnabled => true
  | M_ditheringIntensity, M_ditheringIntensity => true
  | M_skipFinalColorClamp, M_skipFinalColorClamp => true
  | M_applyByPostProcess, M_applyByPostProcess => true
  | M_isEnabled, M_isEnabled => true
  | _, _ => false
  end.

(** What reading the property back through its getter gives. *)
Definition getter (a : Assignment) (c : ImageProcessingConfiguration) : JsValue :=
  match a with
  | Set_colorCurvesEnabled _ => JsBool (colorCurvesEnabled c)
  | Set_colorGradingTexture _ => JsRef (colorGradingTexture c)
  | Set_colorGradingEnabled _ => JsBool (colorGradingEnabled c)
  | Set_colorGradingWithGreenDepth _ => JsBool (colorGradingWithGreenDepth c)
  | Set_colorGradingBGR _ => JsBool (colorGradingBGR c)
  | Set_exposure _ => JsNumber (exposure c)
  | Set_toneMappingEnabled _ => JsBool (toneMappingEnabled c)
  | Set_toneMappingType _ => JsNumber (toneMappingType c)
  | Set_contrast _ => JsNumber (contrast c)
  | Set_vignetteBlendMode _ => JsNumber (vignetteBlendMode c)
  | Set_vignetteEnabled _ => JsBool (vignetteEnabled c)
  | Set_ditheringEnabled _ => JsBool (ditheringEnabled c)
  | Set_ditheringIntensity _ => JsNumber (ditheringIntensity c)
  | Set_skipFinalColorClamp _ => JsBool (skipFinalColorClamp c)
  | Set_applyByPostProcess _ => JsBool (applyByPostProcess c)
  | Set_isEnabled _ => JsBool (isEnabled c)
  end.

End ImageProcessing.

(** * Part I, continued: the shader side of the configuration *)

Module ImageProcessingShader.
Import ImageProcessing.

(** ** The deprecated spellings [vignetteCentreX] and [vignetteCentreY] *)

Definition write_vignetteCenterX (value : number) (c : ImageProcessingConfiguration) : ImageProcessingConfiguration :=
  let '(mkConfiguration x0 x1 x2 x3 x4 x5 x6 x7 x8 x9 x10 x11 x12 x13 x14 x15 x16 x17 x18 x19 x20 x21 x22) := c in
  mkConfiguration x0 x1 x2 x3 x4 x5 x6 x7 x8 x9 x10 value x12 x13 x14 x15 x16 x17 x18 x19 x20 x21 x22.
Definition write_vignetteCenterY (value : number) (c : ImageProcessingConfiguration) : ImageProcessingConfiguration :=
  let '(mkConfiguration x0 x1 x2 x3 x4 x5 x6 x7 x8 x9 x10 x11 x12 x13 x14 x15 x16 x17 x18 x19 x20 x21 x22) := c in
  mkConfiguration x0 x1 x2 x3 x4 x5 x6 x7 x8 x9 x10 x11 value x13 x14 x15 x16 x17 x18 x19 x20 x21 x22.

(** [get vignetteCentreY()] and [set vignetteCentreY(value)], then the X pair:
    plain accessors of the [vignetteCenter] fields, without a guard and
    without [_updateParameters]. *)
Definition vignetteCentreY (c : ImageProcessingConfiguration) : number := vignetteCenterY c.

Definition set_vignetteCentreY (value : number) (w : World) : World :=
  store (write_vignetteCenterY value (this w)) w.

Definition vignetteCentreX (c : ImageProcessingConfiguration) : number := vignetteCenterX c.

Definition set_vignetteCentreX (value : number) (w : World) : World :=
  store (write_vignetteCenterX value (this w)) w.

(** [getClassName()] *)
Definition getClassName : string := "ImageProcessingConfiguration".

(** ** Defines

    The interface [IImageProcessingConfigurationDefines], in declaration
    order. *)
Record IImageProcessingConfigurationDefines : Type := mkDefines {
  IMAGEPROCESSING : bool;
  VIGNETTE : bool;
  VIGNETTEBLENDMODEMULTIPLY : bool;
  VIGNETTEBLENDMODEOPAQUE : bool;
  TONEMAPPING : bool;
  TONEMAPPING_ACES : bool;
  CONTRAST : bool;
  EXPOSURE : bool;
  COLORCURVES : bool;
  COLORGRADING : bool;
  COLORGRADING3D : bool;
  SAMPLER3DGREENDEPTH : bool;
  SAMPLER3DBGRMAP : bool;
  DITHER : bool;
  IMAGEPROCESSINGPOSTPROCESS : bool;
  SKIPFINALCOLORCLAMP : bool;
}.

(** The assignments [defines.F = value]. *)
Definition set_IMAGEPROCESSING (value : bool) (defines : IImageProcessingConfigurationDefines)
  : IImageProcessingConfigurationDefines :=
  mkDefines value (VIGNETTE defines) (VIGNETTEBLENDMODEMULTIPLY defines) (VIGNETTEBLENDMODEOPAQUE defines)
    (TONEMAPPING defines) (TONEMAPPING_ACES defines) (CONTRAST defines) (EXPOSURE defines)
    (COLORCURVES defines) (COLORGRADING defines) (COLORGRADING3D defines) (SAMPLER3DGREENDEPTH defines)
    (SAMPLER3DBGRMAP defines) (DITHER defines) (IMAGEPROCESSINGPOSTPROCESS defines) (SKIPFINALCOLORCLAMP defines).
Definition set_VIGNETTE (value : bool) (defines : IImageProcessingConfigurationDefines)
  : IImageProcessingConfigurationDefines :=
  mkDefines (IMAGEPROCESSING defines) value (VIGNETTEBLENDMODEMULTIPLY defines) (VIGNETTEBLENDMODEOPAQUE defines)
    (TONEMAPPING defines) (TONEMAPPING_ACES defines) (CONTRAST defines) (EXPOSURE defines)
    (COLORCURVES defines) (COLORGRADING defines) (COLORGRADING3D defines) (SAMPLER3DGREENDEPTH defines)
    (SAMPLER3DBGRMAP defines) (DITHER defines) (IMAGEPROCESSINGPOSTPROCESS defines) (SKIPFINALCOLORCLAMP defines).
Definition set_VIGNETTEBLENDMODEMULTIPLY (value : bool) (defines : IImageProcessingConfigurationDefines)
  : IImageProcessingConfigurationDefines :=
  mkDefines (IMAGEPROCESSING defines) (VIGNETTE defines) value (VIGNETTEBLENDMODEOPAQUE defines)
    (TONEMAPPING defines) (TONEMAPPING_ACES defines) (CONTRAST defines) (EXPOSURE defines)
    (COLORCURVES defines) (COLORGRADING defines) (COLORGRADING3D defines) (SAMPLER3DGREENDEPTH defines)
    (SAMPLER3DBGRMAP defines) (DITHER defines) (IMAGEPROCESSINGPOSTPROCESS defines) (SKIPFINALCOLORCLAMP defines).
Definition set_VIGNETTEBLENDMODEOPAQUE (value : bool) (defines : IImageProcessingConfigurationDefines)
  : IImageProcessingConfigurationDefines :=
  mkDefines (IMAGEPROCESSING defines) (VIGNETTE defines) (VIGNETTEBLENDMODEMULTIPLY defines) value
    (TONEMAPPING defines) (TONEMAPPING_ACES defines) (CONTRAST defines) (EXPOSURE defines)
    (COLORCURVES defines) (COLORGRADING defines) (COLORGRADING3D defines) (SAMPLER3DGREENDEPTH defines)
    (SAMPLER3DBGRMAP defines) (DITHER defines) (IMAGEPROCESSINGPOSTPROCESS defines) (SKIPFINALCOLORCLAMP defines).
Definition set_TONEMAPPING (value : bool) (defines : IImageProcessingConfigurationDefines)
  : IImageProcessingConfigurationDefines :=
  mkDefines (IMAGEPROCESSING defines) (VIGNETTE defines) (VIGNETTEBLENDMODEMULTIPLY defines) (VIGNETTEBLENDMODEOPAQUE defines)
    value (TONEMAPPING_ACES defines) (CONTRAST defines) (EXPOSURE defines)
    (COLORCURVES defines) (COLORGRADING defines) (COLORGRADING3D defines) (SAMPLER3DGREENDEPTH defines)
    (SAMPLER3DBGRMAP defines) (DITHER defines) (IMAGEPROCESSINGPOSTPROCESS defines) (SKIPFINALCOLORCLAMP defines).
Definition set_TONEMAPPING_ACES (value : bool) (defines : IImageProcessingConfigurationDefines)
  : IImageProcessingConfigurationDefines :=
  mkDefines (IMAGEPROCESSING defines) (VIGNETTE defines) (VIGNETTEBLENDMODEMULTIPLY defines) (VIGNETTEBLENDMODEOPAQUE defines)
    (TONEMAPPING defines) value (CONTRAST defines) (EXPOSURE defines)
    (COLORCURVES defines) (COLORGRADING defines) (COLORGRADING3D defines) (SAMPLER3DGREENDEPTH defines)
    (SAMPLER3DBGRMAP defines) (DITHER defines) (IMAGEPROCESSINGPOSTPROCESS defines) (SKIPFINALCOLORCLAMP defines).
Definition set_CONTRAST (value : bool) (defines : IImageProcessingConfigurationDefines)
  : IImageProcessingConfigurationDefines :=
  mkDefines (IMAGEPROCESSING defines) (VIGNETTE defines) (VIGNETTEBLENDMODEMULTIPLY defines) (VIGNETTEBLENDMODEOPAQUE defines)
    (TONEMAPPING defines) (TONEMAPPING_ACES defines) value (EXPOSURE defines)
    (COLORCURVES defines) (COLORGRADING defines) (COLORGRADING3D defines) (SAMPLER3DGREENDEPTH defines)
    (SAMPLER3DBGRMAP defines) (DITHER defines) (IMAGEPROCESSINGPOSTPROCESS defines) (SKIPFINALCOLORCLAMP defines).
Definition set_EXPOSURE (value : bool) (defines : IImageProcessingConfigurationDefines)
  : IImageProcessingConfigurationDefines :=
  mkDefines (IMAGEPROCESSING defines) (VIGNETTE defines) (VIGNETTEBLENDMODEMULTIPLY defines) (VIGNETTEBLENDMODEOPAQUE defines)
    (TONEMAPPING defines) (TONEMAPPING_ACES defines) (CONTRAST defines) value
    (COLORCURVES defines) (COLORGRADING defines) (COLORGRADING3D defines) (SAMPLER3DGREENDEPTH defines)
    (SAMPLER3DBGRMAP defines) (DITHER defines) (IMAGEPROCESSINGPOSTPROCESS defines) (SKIPFINALCOLORCLAMP defines).
Definition set_COLORCURVES (value : bool) (defines : IImageProcessingConfigurationDefines)
  : IImageProcessingConfigurationDefines :=
  mkDefines (IMAGEPROCESSING defines) (VIGNETTE defines) (VIGNETTEBLENDMODEMULTIPLY defines) (VIGNETTEBLENDMODEOPAQUE defines)
    (TONEMAPPING defines) (TONEMAPPING_ACES defines) (CONTRAST defines) (EXPOSURE defines)
    value (COLORGRADING defines) (COLORGRADING3D defines) (SAMPLER3DGREENDEPTH defines)
    (SAMPLER3DBGRMAP defines) (DITHER defines) (IMAGEPROCESSINGPOSTPROCESS defines) (SKIPFINALCOLORCLAMP defines).
Definition set_COLORGRADING (value : bool) (defines : IImageProcessingConfigurationDefines)
  : IImageProcessingConfigurationDefines :=
  mkDefines (IMAGEPROCESSING defines) (VIGNETTE defines) (VIGNETTEBLENDMODEMULTIPLY defines) (VIGNETTEBLENDMODEOPAQUE defines)
    (TONEMAPPING defines) (TONEMAPPING_ACES defines) (CONTRAST defines) (EXPOSURE defines)
    (COLORCURVES defines) value (COLORGRADING3D defines) (SAMPLER3DGREENDEPTH defines)
    (SAMPLER3DBGRMAP defines) (DITHER defines) (IMAGEPROCESSINGPOSTPROCESS defines) (SKIPFINALCOLORCLAMP defines).
Definition set_COLORGRADING3D (value : bool) (defines : IImageProcessingConfigurationDefines)
  : IImageProcessingConfigurationDefines :=
  mkDefines (IMAGEPROCESSING defines) (VIGNETTE defines) (VIGNETTEBLENDMODEMULTIPLY defines) (VIGNETTEBLENDMODEOPAQUE defines)
    (TONEMAPPING defines) (TONEMAPPING_ACES defines) (CONTRAST defines) (EXPOSURE defines)
    (COLORCURVES defines) (COLORGRADING defines) value (SAMPLER3DGREENDEPTH defines)
    (SAMPLER3DBGRMAP defines) (DITHER defines) (IMAGEPROCESSINGPOSTPROCESS defines) (SKIPFINALCOLORCLAMP defines).
Definition set_SAMPLER3DGREENDEPTH (value : bool) (defines : IImageProcessingConfigurationDefines)
  : IImageProcessingConfigurationDefines :=
  mkDefines (IMAGEPROCESSING defines) (VIGNETTE defines) (VIGNETTEBLENDMODEMULTIPLY defines) (VIGNETTEBLENDMODEOPAQUE defines)
    (TONEMAPPING defines) (TONEMAPPING_ACES defines) (CONTRAST defines) (EXPOSURE defines)
    (COLORCURVES defines) (COLORGRADING defines) (COLORGRADING3D defines) value
    (SAMPLER3DBGRMAP defines) (DITHER defines) (IMAGEPROCESSINGPOSTPROCESS defines) (SKIPFINALCOLORCLAMP defines).
Definition set_SAMPLER3DBGRMAP (value : bool) (defines : IImageProcessingConfigurationDefines)
  : IImageProcessingConfigurationDefines :=
  mkDefines (IMAGEPROCESSING defines) (VIGNETTE defines) (VIGNETTEBLENDMODEMULTIPLY defines) (VIGNETTEBLENDMODEOPAQUE defines)
    (TONEMAPPING defines) (TONEMAPPING_ACES defines) (CONTRAST defines) (EXPOSURE defines)
    (COLORCURVES defines) (COLORGRADING defines) (COLORGRADING3D defines) (SAMPLER3DGREENDEPTH defines)
    value (DITHER defines) (IMAGEPROCESSINGPOSTPROCESS defines) (SKIPFINALCOLORCLAMP defines).
Definition set_DITHER (value : bool) (defines : IImageProcessingConfigurationDefines)
  : IImageProcessingConfigurationDefines :=
  mkDefines (IMAGEPROCESSING defines) (VIGNETTE defines) (VIGNETTEBLENDMODEMULTIPLY defines) (VIGNETTEBLENDMODEOPAQUE defines)
    (TONEMAPPING defines) (TONEMAPPING_ACES defines) (CONTRAST defines) (EXPOSURE defines)
    (COLORCURVES defines) (COLORGRADING defines) (COLORGRADING3D defines) (SAMPLER3DGREENDEPTH defines)
    (SAMPLER3DBGRMAP defines) value (IMAGEPROCESSINGPOSTPROCESS defines) (SKIPFINALCOLORCLAMP defines).
Definition set_IMAGEPROCESSINGPOSTPROCESS (value : bool) (defines : IImageProcessingConfigurationDefines)
  : IImageProcessingConfigurationDefines :=
  mkDefines (IMAGEPROCESSING defines) (VIGNETTE defines) (VIGNETTEBLENDMODEMULTIPLY defines) (VIGNETTEBLENDMODEOPAQUE defines)
    (TONEMAPPING defines) (TONEMAPPING_ACES defines) (CONTRAST defines) (EXPOSURE defines)
    (COLORCURVES defines) (COLORGRADING defines) (COLORGRADING3D defines) (SAMPLER3DGREENDEPTH defines)
    (SAMPLER3DBGRMAP defines) (DITHER defines) value (SKIPFINALCOLORCLAMP defines).
Definition set_SKIPFINALCOLORCLAMP (value : bool) (defines : IImageProcessingConfigurationDefines)
  : IImageProcessingConfigurationDefines :=
  mkDefines (IMAGEPROCESSING defines) (VIGNETTE defines) (VIGNETTEBLENDMODEMULTIPLY defines) (VIGNETTEBLENDMODEOPAQUE defines)
    (TONEMAPPING defines) (TONEMAPPING_ACES defines) (CONTRAST defines) (EXPOSURE defines)
    (COLORCURVES defines) (COLORGRADING defines) (COLORGRADING3D defines) (SAMPLER3DGREENDEPTH defines)
    (SAMPLER3DBGRMAP defines) (DITHER defines) (IMAGEPROCESSINGPOSTPROCESS defines) value.

(** [new ImageProcessingConfigurationDefines()]: the field initialisers. *)
Definition new_ImageProcessingConfigurationDefines : IImageProcessingConfigurationDefines :=
  {| IMAGEPROCESSING := false;
     VIGNETTE := false;
     VIGNETTEBLENDMODEMULTIPLY := false;
     VIGNETTEBLENDMODEOPAQUE := false;
     TONEMAPPING := false;
     TONEMAPPING_ACES := false;
     CONTRAST := false;
     COLORCURVES := false;
     COLORGRADING := false;
     COLORGRADING3D := false;
     SAMPLER3DGREENDEPTH := false;
     SAMPLER3DBGRMAP := false;
     DITHER := false;
     IMAGEPROCESSINGPOSTPROCESS := false;
     EXPOSURE := false;
     SKIPFINALCOLORCLAMP := false |}.

(** ** Textures and effects

    What the class reads of a [BaseTexture] ([is3D], [isReady()],
    [getSize().height], [level]) and what it does to an [Effect]: the calls
    are logged in order; the engine of the effect gives the render size. *)
Record BaseTexture : Type := mkBaseTexture {
  is3D : bool;
  texture_isReady : bool;
  getSize_height : number;
  level : number;
}.

Inductive EffectCall : Type :=
  | ColorCurves_Bind (colorCurves : ObjRef)
  | setFloat (uniformName : string) (x : number)
  | setFloat2 (uniformName : string) (x y : number)
  | setFloat4 (uniformName : string) (x y z w : number)
  | setTexture (channel : string) (texture : ObjRef).

Record Effect : Type := mkEffect {
  getRenderWidth : number;
  getRenderHeight : number;
  calls : list EffectCall;
}.

Definition call (k : EffectCall) (effect : Effect) : Effect :=
  {| getRenderWidth := getRenderWidth effect;
     getRenderHeight := getRenderHeight effect;
     calls := calls effect ++ [k] |}.

(** The name a call binds, if it binds one by name. *)
Definition bound_name (k : EffectCall) : option string :=
  match k with
  | ColorCurves_Bind _ => None
  | setFloat n _ => Some n
  | setFloat2 n _ _ => Some n
  | setFloat4 n _ _ _ _ => Some n
  | setTexture n _ => Some n
  end.

(** [!!x] on a nullable reference. *)
Definition truthy {A : Type} (x : Nullable A) : bool :=
  match x with
  | js_obj _ => true
  | _ => false
  end.

Section Shader.

(** [ColorCurves.PrepareUniforms], [Math.tan] and [Tools.Mix] are taken as
    they come; the textures are looked up by identity. *)
Variable ColorCurves_PrepareUniforms : list string -> list string.
Variable Math_tan : number -> number.
Variable Tools_Mix : number -> number -> number -> number.
Variable textures : ObjRef -> BaseTexture.

(** [static PrepareUniforms(uniforms, defines)]; [push] appends. *)
Definition PrepareUniforms (uniforms : list string)
    (defines : IImageProcessingConfigurationDefines) : list string :=
  let uniforms := if EXPOSURE defines then uniforms ++ ["exposureLinear"] else uniforms in
  let uniforms := if CONTRAST defines then uniforms ++ ["contrast"] else uniforms in
  let uniforms :=
    if COLORGRADING defines then uniforms ++ ["colorTransformSettings"] else uniforms in
  let uniforms :=
    if VIGNETTE defines || DITHER defines then uniforms ++ ["vInverseScreenSize"]
    else uniforms in
  let uniforms :=
    if VIGNETTE defines
    then (uniforms ++ ["vignetteSettings1"]) ++ ["vignetteSettings2"]
    else uniforms in
  let uniforms :=
    if COLORCURVES defines then ColorCurves_PrepareUniforms uniforms else uniforms in
  if DITHER defines then uniforms ++ ["ditherIntensity"] else uniforms.

(** [static PrepareSamplers(samplersList, defines)] *)
Definition PrepareSamplers (samplersList : list string)
    (defines : IImageProcessingConfigurationDefines) : list string :=
  if COLORGRADING defines then samplersList ++ ["txColorTransform"] else samplersList.

(** [prepareDefines(defines, forPostProcess)].  The defines are assigned one
    after the other and read back, as in the source.  [None] is the
    [TypeError] of reading [is3D] off a texture that is [null] or
    [undefined]. *)
Definition prepareDefines (c : ImageProcessingConfiguration)
    (defines : IImageProcessingConfigurationDefines) (forPostProcess : bool)
  : option IImageProcessingConfigurationDefines :=
  if negb (Bool.eqb forPostProcess (applyByPostProcess c)) || negb (_isEnabled c) then
    let defines := set_VIGNETTE false defines in
    let defines := set_TONEMAPPING false defines in
    let defines := set_TONEMAPPING_ACES false defines in
    let defines := set_CONTRAST false defines in
    let defines := set_EXPOSURE false defines in
    let defines := set_COLORCURVES false defines in
    let defines := set_COLORGRADING false defines in
    let defines := set_COLORGRADING3D false defines in
    let defines := set_DITHER false defines in
    let defines := set_IMAGEPROCESSING false defines in
    let defines := set_SKIPFINALCOLORCLAMP (skipFinalColorClamp c) defines in
    let defines :=
      set_IMAGEPROCESSINGPOSTPROCESS (applyByPostProcess c && _isEnabled c) defines in
    Some defines
  else
    let defines := set_VIGNETTE (vignetteEnabled c) defines in
    let defines :=
      set_VIGNETTEBLENDMODEMULTIPLY
        (PrimFloat.eqb (vignetteBlendMode c) VIGNETTEMODE_MULTIPLY) defines in
    let defines :=
      set_VIGNETTEBLENDMODEOPAQUE (negb (VIGNETTEBLENDMODEMULTIPLY defines)) defines in
    let defines := set_TONEMAPPING (toneMappingEnabled c) defines in
    let defines :=
      if PrimFloat.eqb (_toneMappingType c) ImageProcessing.TONEMAPPING_ACES
      then set_TONEMAPPING_ACES true defines
      else set_TONEMAPPING_ACES false defines in
    let defines := set_CONTRAST (negb (PrimFloat.eqb (contrast c) 1)) defines in
    let defines := set_EXPOSURE (negb (PrimFloat.eqb (exposure c) 1)) defines in
    let defines :=
      set_COLORCURVES (colorCurvesEnabled c && truthy (colorCurves c)) defines in
    let defines :=
      set_COLORGRADING (colorGradingEnabled c && truthy (colorGradingTexture c)) defines in
    defines ←
      (if COLORGRADING defines then
         match colorGradingTexture c with
         | js_obj texture => Some (set_COLORGRADING3D (is3D (textures texture)) defines)
         | _ => None
         end
       else Some (set_COLORGRADING3D false defines));
    let defines := set_SAMPLER3DGREENDEPTH (colorGradingWithGreenDepth c) defines in
    let defines := set_SAMPLER3DBGRMAP (colorGradingBGR c) defines in
    let defines := set_DITHER (_ditheringEnabled c) defines in
    let defines := set_IMAGEPROCESSINGPOSTPROCESS (applyByPostProcess c) defines in
    let defines := set_SKIPFINALCOLORCLAMP (skipFinalColorClamp c) defines in
    let defines :=
      set_IMAGEPROCESSING
        (VIGNETTE defines || TONEMAPPING defines || CONTRAST defines || EXPOSURE defines
         || COLORCURVES defines || COLORGRADING defines || DITHER defines) defines in
    Some defines.

(** [isReady()]: [||] stops at the first truthy operand, so the texture is
    asked only when colour grading is enabled and a texture is set. *)
Definition isReady (c : ImageProcessingConfiguration) : bool :=
  if negb (colorGradingEnabled c) then true
  else
    match colorGradingTexture c with
    | js_obj texture => texture_isReady (textures texture)
    | _ => true
    end.

(** [bind(effect, overrideAspectRatio)]; an omitted or [null]
    [overrideAspectRatio] is [None]. *)
Definition bind (c : ImageProcessingConfiguration) (effect : Effect)
    (overrideAspectRatio : option number) : Effect :=
  let effect :=
    if _colorCurvesEnabled c then
      match colorCurves c with
      | js_obj curves => call (ColorCurves_Bind curves) effect
      | _ => effect
      end
    else effect in
  let effect :=
    if _vignetteEnabled c || _ditheringEnabled c then
      let inverseWidth := (1 / getRenderWidth effect)%float in
      let inverseHeight := (1 / getRenderHeight effect)%float in
      let effect := call (setFloat2 "vInverseScreenSize" inverseWidth inverseHeight) effect in
      let effect :=
        if _ditheringEnabled c
        then call (setFloat "ditherIntensity" (0.5 * _ditheringIntensity c)%float) effect
        else effect in
      if _vignetteEnabled c then
        let aspectRatio :=
          match overrideAspectRatio with
          | Some ratio => ratio
          | None => (inverseHeight / inverseWidth)%float
          end in
        let vignetteScaleY := Math_tan (vignetteCameraFov c * 0.5)%float in
        let vignetteScaleX := (vignetteScaleY * aspectRatio)%float in
        let vignetteScaleGeometricMean :=
          PrimFloat.sqrt (vignetteScaleX * vignetteScaleY)%float in
        let vignetteScaleX :=
          Tools_Mix vignetteScaleX vignetteScaleGeometricMean (vignetteStretch c) in
        let vignetteScaleY :=
          Tools_Mix vignetteScaleY vignetteScaleGeometricMean (vignetteStretch c) in
        let effect :=
          call (setFloat4 "vignetteSettings1" vignetteScaleX vignetteScaleY
                  (- vignetteScaleX * vignetteCenterX c)%float
                  (- vignetteScaleY * vignetteCenterY c)%float) effect in
        let vignettePower := (-2 * vignetteWeight c)%float in
        call (setFloat4 "vignetteSettings2" (r (vignetteColor c)) (g (vignetteColor c))
                (b (vignetteColor c)) vignettePower) effect
      else effect
    else effect in
  let effect := call (setFloat "exposureLinear" (exposure c)) effect in
  let effect := call (setFloat "contrast" (contrast c)) effect in
  match colorGradingTexture c with
  | js_obj texture =>
      let effect := call (setTexture "txColorTransform" texture) effect in
      let textureSize := getSize_height (textures texture) in
      call (setFloat4 "colorTransformSettings"
              ((textureSize - 1) / textureSize)%float
              (0.5 / textureSize)%float
              textureSize
              (level (textures texture))) effect
  | _ => effect
  end.

End Shader.

(** ** Notions the properties are stated with *)

(** The names a list of calls binds, in order. *)
Definition bound_names (ks : list EffectCall) : list string :=
  omap bound_name ks.

(** The calls [bind] adds to an effect. *)
Definition added_calls (before after : Effect) : list EffectCall :=
  drop (length (calls before)) (calls after).

(** The pass whose effects [prepareDefines] computes: the one the
    configuration applies to, when image processing is enabled. *)
Definition active (c : ImageProcessingConfiguration) (forPostProcess : bool) : bool :=
  Bool.eqb forPostProcess (applyByPostProcess c) && _isEnabled c.


(** Some effect define is set. *)
Definition any_effect (d : IImageProcessingConfigurationDefines) : bool :=
  VIGNETTE d || TONEMAPPING d || CONTRAST d || EXPOSURE d || COLORCURVES d
  || COLORGRADING d || DITHER d.

End ImageProcessingShader.

(** * Part I, concluded: a concrete configuration *)

Module ShaderExample.
Import ImageProcessing ImageProcessingShader.

(** Stand-ins for what comes from elsewhere: the uniforms of the colour
    curves, the tangent, the mix, and one 3D look-up texture, 16 high, that
    is still loading. *)
Definition curve_uniforms (uniforms : list string) : list string :=
  uniforms ++ ["vCameraColorCurveNeutral"; "vCameraColorCurvePositive";
               "vCameraColorCurveNegative"].

Definition tangent (x : number) : number := x.

Definition mix (a b t : number) : number := (a * (1 - t) + b * t)%float.

Definition lut : BaseTexture := mkBaseTexture true false 16%float 1%float.

Definition textures (_ : ObjRef) : BaseTexture := lut.

(** A new configuration; one with a vignette, dithering and colour grading
    by texture 2 switched on through the setters. *)
Definition plain : World := mkWorld (new_ImageProcessingConfiguration 1%positive) [].

Definition graded : World :=
  assign (Set_colorGradingTexture (js_obj 2%positive))
    (assign (Set_colorGradingEnabled true)
       (assign (Set_ditheringEnabled true)
          (assign (Set_vignetteEnabled true) plain))).

(** The defines of the pass the configuration applies to. *)
Definition defines_of (w : World) : IImageProcessingConfigurationDefines :=
  default new_ImageProcessingConfigurationDefines
    (prepareDefines textures (this w) new_ImageProcessingConfigurationDefines
       (applyByPostProcess (this w))).

Definition screen : Effect := mkEffect 1920%float 1080%float [].

End ShaderExample.

(** * Part II: the UASTC to RGBA (unorm) lite transcoder *)

Module KTX2.

(** ** Values *)

Definition bytes : Type := list Byte.byte.

Definition BufferId : Type := nat.
Definition PromiseId : Type := nat.

(** What a [throw] (or a rejected promise) carries. *)
Inductive JsError : Type :=
  | TypeError
  | RangeError
  | RuntimeError
  | HostError (reason : string).

(** How a synchronous piece of code ends. *)
Inductive Completion (A : Type) : Type :=
  | Normal (a : A)
  | Throw (e : JsError).
Arguments Normal {A} a.
Arguments Throw {A} e.

(** A [Uint8Array] is a window on an [ArrayBuffer]: two typed arrays on the
    same buffer alias each other. *)
Record Uint8Array : Type := mkUint8Array {
  buffer : BufferId;
  byteOffset : nat;
  byteLength : nat;
}.

(** The exports of the instantiated WebAssembly module.  [decode(width,
    height)] works on the linear memory the module was instantiated with; it
    returns a status code or traps, and leaves the memory in a new state. *)
Inductive DecodeOutcome : Type :=
  | Returns (code : Z)
  | Traps.

Record WasmExports : Type := mkExports {
  decode : Z -> Z -> bytes -> DecodeOutcome * bytes;
}.

(** [{ module: exports }], what the load promise resolves with. *)
Record ModuleWrapper : Type := mkModuleWrapper {
  module : WasmExports;
}.

(** ** Promises

    The closures handed to [then] are kept in defunctionalised form: the
    arrow function of [transcode] captures [width], [height],
    [uncompressedByteLength] and [encodedData] (the bytes of the caller's
    array, as they are when the callback reads them). *)
Inductive Value : Type :=
  | VModule (moduleWrapper : ModuleWrapper)
  | VPixels (result : option Uint8Array).

Inductive Settled : Type :=
  | Fulfilled (v : Value)
  | Rejected (e : JsError).

Record Callback : Type := TranscodeThen {
  cb_width : Z;
  cb_height : Z;
  cb_uncompressedByteLength : Z;
  cb_encodedData : bytes;
}.

Record Reaction : Type := mkReaction {
  handler : Callback;
  derived : PromiseId;
}.

Inductive PromiseState : Type :=
  | Pending (reactions : list Reaction)
  | Done (outcome : Settled).

Record Job : Type := mkJob {
  job_handler : Callback;
  job_input : Settled;
  job_derived : PromiseId;
}.

(** ** Module binding *)

(** Modelled from the spec: the base class [LiteTranscoder] (its fields and
    [_loadModule], [setModulePath], [initialize], [_prepareTranscoding]) is
    missing from the sources at hand.  A load goes through the fetch of the
    binary, unless one is supplied, and then its instantiation (§4.4). *)
Inductive Stage : Type :=
  | Fetching
  | Instantiating.

(** Modelled from the spec: the per-variant module binding of §3 and the
    states of the Module Lifecycle Manager of §4.4: unloaded, loading with
    one shared pending handle, loaded holding the ready module, failed. *)
Inductive ModuleBinding : Type :=
  | Unloaded
  | Loading (pending : PromiseId) (stage : Stage)
  | Loaded (moduleWrapper : ModuleWrapper)
  | Failed.

(** What the host is asked to do and what the module is asked to do, in the
    order it happens. *)
Inductive Event : Type :=
  | EvFetch (url : string)
  | EvInstantiate (binary : bytes)
  | EvLoaded
  | EvLoadFailed (e : JsError)
  | EvDecode (width height : Z).

(** ** State

    The two static members of the class; the fields of the instance, of
    which [_transcodeInPlace] is assigned by the class and the others belong
    to the base class (module path and binary, the module binding, the
    linear memory of the memory manager); and the runtime: array buffers,
    promises, the microtask queue and the event log. *)
Record State : Type := mkState {
  WasmModuleURL : string;
  WasmBinary : option bytes;
  _modulePath : string;
  _wasmBinary : option bytes;
  _transcodeInPlace : bool;
  binding : ModuleBinding;
  wasmMemory : BufferId;
  heap : gmap BufferId bytes;
  promises : gmap PromiseId PromiseState;
  microtasks : list Job;
  trace : list Event;
}.

Definition set_WasmModuleURL (value : string) (s : State) : State :=
  mkState value (WasmBinary s) (_modulePath s) (_wasmBinary s) (_transcodeInPlace s)
          (binding s) (wasmMemory s) (heap s) (promises s) (microtasks s) (trace s).
Definition set_WasmBinary (value : option bytes) (s : State) : State :=
  mkState (WasmModuleURL s) value (_modulePath s) (_wasmBinary s) (_transcodeInPlace s)
          (binding s) (wasmMemory s) (heap s) (promises s) (microtasks s) (trace s).
Definition set__modulePath (value : string) (s : State) : State :=
  mkState (WasmModuleURL s) (WasmBinary s) value (_wasmBinary s) (_transcodeInPlace s)
          (binding s) (wasmMemory s) (heap s) (promises s) (microtasks s) (trace s).
Definition set__wasmBinary (value : option bytes) (s : State) : State :=
  mkState (WasmModuleURL s) (WasmBinary s) (_modulePath s) value (_transcodeInPlace s)
          (binding s) (wasmMemory s) (heap s) (promises s) (microtasks s) (trace s).
Definition set__transcodeInPlace (value : bool) (s : State) : State :=
  mkState (WasmModuleURL s) (WasmBinary s) (_modulePath s) (_wasmBinary s) value
          (binding s) (wasmMemory s) (heap s) (promises s) (microtasks s) (trace s).
Definition set_binding (value : ModuleBinding) (s : State) : State :=
  mkState (WasmModuleURL s) (WasmBinary s) (_modulePath s) (_wasmBinary s) (_transcodeInPlace s)
          value (wasmMemory s) (heap s) (promises s) (microtasks s) (trace s).
Definition set_wasmMemory (value : BufferId) (s : State) : State :=
  mkState (WasmModuleURL s) (WasmBinary s) (_modulePath s) (_wasmBinary s) (_transcodeInPlace s)
          (binding s) value (heap s) (promises s) (microtasks s) (trace s).
Definition set_heap (value : gmap BufferId bytes) (s : State) : State :=
  mkState (WasmModuleURL s) (WasmBinary s) (_modulePath s) (_wasmBinary s) (_transcodeInPlace s)
          (binding s) (wasmMemory s) value (promises s) (microtasks s) (trace s).
Definition set_promises (value : gmap PromiseId PromiseState) (s : State) : State :=
  mkState (WasmModuleURL s) (WasmBinary s) (_modulePath s) (_wasmBinary s) (_transcodeInPlace s)
          (binding s) (wasmMemory s) (heap s) value (microtasks s) (trace s).
Definition set_microtasks (value : list Job) (s : State) : State :=
  mkState (WasmModuleURL s) (WasmBinary s) (_modulePath s) (_wasmBinary s) (_transcodeInPlace s)
          (binding s) (wasmMemory s) (heap s) (promises s) value (trace s).
Definition set_trace (value : list Event) (s : State) : State :=
  mkState (WasmModuleURL s) (WasmBinary s) (_modulePath s) (_wasmBinary s) (_transcodeInPlace s)
          (binding s) (wasmMemory s) (heap s) (promises s) (microtasks s) value.

(** ** Synchronous code: state and exceptions *)

Definition M (A : Type) : Type := State -> Completion A * State.

#[export] Instance M_ret : MRet M := fun A a s => (Normal a, s).

#[export] Instance M_bind : MBind M := fun A B f m s =>
  match m s with
  | (Normal a, s') => f a s'
  | (Throw e, s') => (Throw e, s')
  end.

Definition throw {A : Type} (e : JsError) : M A := fun s => (Throw e, s).

Definition gets {A : Type} (f : State -> A) : M A := fun s => (Normal (f s), s).

Definition modify (f : State -> State) : M unit := fun s => (Normal tt, f s).

Definition emit (ev : Event) : M unit :=
  modify (fun s => set_trace (trace s ++ [ev]) s).

(** ** Promise operations *)

(** [new Promise(...)] in a given state; the identity is one not in use. *)
Definition new_promise (st : PromiseState) : M PromiseId := fun s =>
  let p := fresh (dom (promises s)) in
  (Normal p, set_promises (<[p := st]> (promises s)) s).

(** [p.then(cb)]: a derived promise; the reaction waits on a pending [p] and
    is queued as a microtask on a settled one. *)
Definition promise_then (p : PromiseId) (cb : Callback) : M PromiseId :=
  st ← gets (fun s => promises s !! p);
  match st with
  | None => throw TypeError
  | Some (Pending reactions) =>
      q ← new_promise (Pending []);
      modify (fun s => set_promises (<[p := Pending (reactions ++ [mkReaction cb q])]> (promises s)) s);;
      mret q
  | Some (Done outcome) =>
      q ← new_promise (Pending []);
      modify (fun s => set_microtasks (microtasks s ++ [mkJob cb outcome q]) s);;
      mret q
  end.

(** Settling a pending promise queues its reactions, in registration order.
    A promise settles once. *)
Definition settle (p : PromiseId) (outcome : Settled) (s : State) : State :=
  match promises s !! p with
  | Some (Pending reactions) =>
      set_microtasks
        (microtasks s ++ map (fun r => mkJob (handler r) outcome (derived r)) reactions)
        (set_promises (<[p := Done outcome]> (promises s)) s)
  | _ => s
  end.

(** ** Typed arrays and the linear memory *)

Definition buffer_bytes (h : gmap BufferId bytes) (b : BufferId) : bytes :=
  default [] (h !! b).

Definition view_bytes (h : gmap BufferId bytes) (v : Uint8Array) : bytes :=
  take (byteLength v) (drop (byteOffset v) (buffer_bytes h (buffer v))).

(** [v.slice()]: a new array on a new buffer holding a copy of the bytes
    seen through [v]. *)
Definition slice (v : Uint8Array) : M Uint8Array := fun s =>
  let data := view_bytes (heap s) v in
  let b := fresh (dom (heap s)) in
  (Normal (mkUint8Array b 0%nat (length data)), set_heap (<[b := data]> (heap s)) s).

(** The contents of the linear memory, read and replaced. *)
Definition working_memory (s : State) : bytes :=
  buffer_bytes (heap s) (wasmMemory s).

Definition store_memory (contents : bytes) (s : State) : State :=
  set_heap (<[wasmMemory s := contents]> (heap s)) s.

(** ** The base class [LiteTranscoder] *)

(** Modelled from the spec: [LiteTranscoder.initialize] is missing from
    the sources at hand.  In-place transcoding is the strategy of the base
    class (§4.5 step 3, §9), which a variant replaces by its own fixed
    flag. *)
Definition LiteTranscoder_initialize : M unit :=
  modify (set__transcodeInPlace true).

(** Modelled from the spec: [setModulePath] is missing from the sources
    at hand.  It records the module source configuration of §6,
    [{ moduleURL, moduleBinary }]. *)
Definition setModulePath (modulePath : string) (wasmBinary : option bytes) : M unit :=
  modify (set__modulePath modulePath);;
  modify (set__wasmBinary wasmBinary).

(** Modelled from the spec: the start of a load, part of the missing
    [_loadModule].  One pending handle is made and kept in the binding; the
    pre-supplied binary is instantiated when there is one, and the remote
    fetch is started otherwise (§4.4, §6). *)
Definition start_load : M PromiseId :=
  p ← new_promise (Pending []);
  wasmBinary ← gets _wasmBinary;
  match wasmBinary with
  | Some binary =>
      emit (EvInstantiate binary);;
      modify (set_binding (Loading p Instantiating));;
      mret p
  | None =>
      modulePath ← gets _modulePath;
      emit (EvFetch modulePath);;
      modify (set_binding (Loading p Fetching));;
      mret p
  end.

(** Modelled from the spec: [_loadModule] is missing from the sources at
    hand.  It is [ensureLoaded()] of §4.4: from Unloaded, and again from
    Failed, a load is started; while Loading the same handle is handed out;
    once Loaded the module is. *)
Definition _loadModule : M PromiseId :=
  b ← gets binding;
  match b with
  | Unloaded => start_load
  | Failed => start_load
  | Loading p _ => mret p
  | Loaded moduleWrapper => new_promise (Done (Fulfilled (VModule moduleWrapper)))
  end.

(** Modelled from the spec: the completion of the fetch, §4.4.  The binary
    goes on to the instantiation; a fetch error makes the binding Failed and
    is handed to every waiter of the pending handle. *)
Definition host_fetched (r : Completion bytes) (s : State) : State :=
  match binding s with
  | Loading p Fetching =>
      match r with
      | Normal binary =>
          set_binding (Loading p Instantiating) (set_trace (trace s ++ [EvInstantiate binary]) s)
      | Throw e =>
          settle p (Rejected e) (set_binding Failed (set_trace (trace s ++ [EvLoadFailed e]) s))
      end
  | _ => s
  end.

(** Modelled from the spec: the completion of the instantiation, §4.4.
    Loading → Loaded on success, the module going to every waiter;
    Loading → Failed on an error, which every waiter receives. *)
Definition host_instantiated (r : Completion ModuleWrapper) (s : State) : State :=
  match binding s with
  | Loading p Instantiating =>
      match r with
      | Normal moduleWrapper =>
          settle p (Fulfilled (VModule moduleWrapper))
            (set_binding (Loaded moduleWrapper) (set_trace (trace s ++ [EvLoaded]) s))
      | Throw e =>
          settle p (Rejected e) (set_binding Failed (set_trace (trace s ++ [EvLoadFailed e]) s))
      end
  | _ => s
  end.

(** Modelled from the spec: the memory manager is missing from the sources
    at hand.  The linear memory is grown, zero-filled, when a working region
    does not fit (§4.5 step 3). *)
Definition grow (n : nat) (mem : bytes) : bytes :=
  mem ++ replicate (n - length mem)%nat Byte.x00.

(** [view.set(data)] for a view starting at [offset]. *)
Definition write_at (offset : nat) (data mem : bytes) : bytes :=
  take offset mem ++ data ++ drop (offset + length data)%nat mem.

(** Modelled from the spec: the linear memory once the working region is
    prepared (§4.5 steps 3 and 4): room for the encoded bytes and for the
    output region, the encoded bytes copied to the start. *)
Definition prepared (encodedData : bytes) (outputLength : nat) (contents : bytes) : bytes :=
  write_at 0%nat encodedData (grow (length encodedData + outputLength)%nat contents).

(** Modelled from the spec: [_prepareTranscoding] is missing from the sources
    at hand.  §4.5 steps 3 and 4: the encoded bytes are copied into the
    working region at the start of the linear memory; a variant that does
    not transcode in place gets a separate output region, right after the
    encoded bytes, sized to the uncompressed byte length.  The result is the
    pair of views [textureView, uncompressedTextureView], the second one
    [null] for an in-place variant.  A negative length is a [RangeError], as
    for every typed array.  The fifth argument, the number of components of
    a pixel (4 at the one call site), does not enter the sizes the spec
    gives. *)
Definition _prepareTranscoding (width height uncompressedByteLength : Z)
    (encodedData : bytes) (uncompressedNumComponents : Z)
  : M (Uint8Array * option Uint8Array) :=
  if uncompressedByteLength <? 0 then throw RangeError
  else
    inPlace ← gets _transcodeInPlace;
    memory ← gets wasmMemory;
    contents ← gets working_memory;
    let inputLength := length encodedData in
    let outputLength := if inPlace : bool then 0%nat else Z.to_nat uncompressedByteLength in
    modify (store_memory (prepared encodedData outputLength contents));;
    mret (mkUint8Array memory 0%nat inputLength,
          if inPlace then None else Some (mkUint8Array memory inputLength outputLength)).

(** ** The class [LiteTranscoder_UASTC_RGBA_UNORM] *)

(** Modelled from the spec: the enumerations [SourceTextureFormat] and
    [TranscodeTarget] (ktx2decoderTypes) and the types [KTX2FileReader] and
    [IKTX2_ImageDesc] are missing from the sources at hand.  The enumerations
    are any tags with a decidable equality, with the two members the class names. *)
Class Ktx2DecoderTypes : Type := {
  SourceTextureFormat : Type;
  TranscodeTarget : Type;
  SourceTextureFormat_eq_dec :: EqDecision SourceTextureFormat;
  TranscodeTarget_eq_dec :: EqDecision TranscodeTarget;
  UASTC4x4 : SourceTextureFormat;
  RGBA32 : TranscodeTarget;
  KTX2FileReader : Type;
  IKTX2_ImageDesc : Type;
}.

(** The initial values of the static members. *)
Definition default_WasmModuleURL : string :=
  "https://cdn.babylonjs.com/ktx2Transcoders/1/uastc_rgba8_unorm_v2.wasm".

Definition default_WasmBinary : option bytes := None.

Definition Name : string := "UniversalTranscoder_UASTC_RGBA_UNORM".

(** [static CanTranscode(src, dst, isInGammaSpace)] *)
Definition CanTranscode `{Ktx2DecoderTypes}
    (src : SourceTextureFormat) (dst : TranscodeTarget) (isInGammaSpace : bool) : bool :=
  bool_decide (src = UASTC4x4) && bool_decide (dst = RGBA32) && negb isInGammaSpace.

(** [getName()] *)
Definition getName : M string := mret Name.

(** [initialize()] *)
Definition initialize : M unit :=
  LiteTranscoder_initialize;;
  modify (set__transcodeInPlace false);;
  url ← gets WasmModuleURL;
  binary ← gets WasmBinary;
  setModulePath url binary.

(** [transcoder.decode(width, height)]: the call is logged, the module runs
    on the linear memory, and a trap surfaces as an exception. *)
Definition call_decode (transcoder : WasmExports) (width height : Z) : M Z :=
  emit (EvDecode width height);;
  contents ← gets working_memory;
  let '(outcome, contents') := decode transcoder width height contents in
  modify (store_memory contents');;
  match outcome with
  | Returns code => mret code
  | Traps => throw RuntimeError
  end.

(** The arrow function given to [then] in [transcode].  A value that is not
    a module wrapper has no [module.decode] to call. *)
Definition transcode_callback (width height uncompressedByteLength : Z)
    (encodedData : bytes) (moduleWrapper : Value) : M Value :=
  match moduleWrapper with
  | VModule wrapper =>
      let transcoder := module wrapper in
      '(_, uncompressedTextureView) ←
        _prepareTranscoding width height uncompressedByteLength encodedData 4;
      code ← call_decode transcoder width height;
      if code =? 0 then
        match uncompressedTextureView with
        | Some view => copy ← slice view; mret (VPixels (Some copy))
        | None => throw TypeError
        end
      else mret (VPixels None)
  | VPixels _ => throw TypeError
  end.

(** [transcode(src, dst, level, width, height, uncompressedByteLength,
    ktx2Reader, imageDesc, encodedData)] *)
Definition transcode `{Ktx2DecoderTypes}
    (src : SourceTextureFormat) (dst : TranscodeTarget) (level width height : Z)
    (uncompressedByteLength : Z) (ktx2Reader : KTX2FileReader)
    (imageDesc : option IKTX2_ImageDesc) (encodedData : bytes) : M PromiseId :=
  p ← _loadModule;
  promise_then p (TranscodeThen width height uncompressedByteLength encodedData).

(** ** The event loop *)

Definition run_callback (cb : Callback) (v : Value) : M Value :=
  transcode_callback (cb_width cb) (cb_height cb) (cb_uncompressedByteLength cb)
    (cb_encodedData cb) v.

(** One promise reaction job: a fulfilled input runs the callback, whose
    result fulfils the derived promise and whose exception rejects it; a
    rejected input passes to the derived promise, the callback is not run. *)
Definition run_job (j : Job) (s : State) : State :=
  match job_input j with
  | Fulfilled v =>
      match run_callback (job_handler j) v s with
      | (Normal x, s') => settle (job_derived j) (Fulfilled x) s'
      | (Throw e, s') => settle (job_derived j) (Rejected e) s'
      end
  | Rejected e => settle (job_derived j) (Rejected e) s
  end.

Definition run_microtask (s : State) : State :=
  match microtasks s with
  | [] => s
  | j :: rest => run_job j (set_microtasks rest s)
  end.

(** What can happen to the transcoder: a client calls a method or sets a
    static member, the host completes the fetch or the instantiation, the
    event loop runs the next microtask. *)
Inductive Action `{Ktx2DecoderTypes} : Type :=
  | Set_WasmModuleURL (url : string)
  | Set_WasmBinary (binary : option bytes)
  | Call_CanTranscode (src : SourceTextureFormat) (dst : TranscodeTarget) (isInGammaSpace : bool)
  | Call_getName
  | Call_initialize
  | Call_setModulePath (modulePath : string) (wasmBinary : option bytes)
  | Call_transcode (src : SourceTextureFormat) (dst : TranscodeTarget) (level width height : Z)
      (uncompressedByteLength : Z) (ktx2Reader : KTX2FileReader)
      (imageDesc : option IKTX2_ImageDesc) (encodedData : bytes)
  | Host_fetched (r : Completion bytes)
  | Host_instantiated (r : Completion ModuleWrapper)
  | Microtask.

Definition step `{Ktx2DecoderTypes} (a : Action) (s : State) : State :=
  match a with
  | Set_WasmModuleURL url => set_WasmModuleURL url s
  | Set_WasmBinary binary => set_WasmBinary binary s
  | Call_CanTranscode _ _ _ => s
  | Call_getName => snd (getName s)
  | Call_initialize => snd (initialize s)
  | Call_setModulePath modulePath wasmBinary => snd (setModulePath modulePath wasmBinary s)
  | Call_transcode src dst level width height uncompressedByteLength ktx2Reader imageDesc encodedData =>
      snd (transcode src dst level width height uncompressedByteLength ktx2Reader imageDesc
             encodedData s)
  | Host_fetched r => host_fetched r s
  | Host_instantiated r => host_instantiated r s
  | Microtask => run_microtask s
  end.

Definition run `{Ktx2DecoderTypes} (actions : list Action) (s : State) : State :=
  foldl (fun s a => step a s) s actions.

(** A newly constructed transcoder in a new realm: static members at their
    initial values, nothing loaded, an empty linear memory. *)
Definition initial_state : State :=
  {| WasmModuleURL := default_WasmModuleURL;
     WasmBinary := default_WasmBinary;
     _modulePath := "";
     _wasmBinary := None;
     _transcodeInPlace := false;
     binding := Unloaded;
     wasmMemory := 0%nat;
     heap := {[ 0%nat := [] ]};
     promises := ∅;
     microtasks := [];
     trace := [] |}.

(** ** Notions the properties are stated with *)

(** What a caller can see of a result: the bytes behind the array, not the
    identity of its buffer. *)
Inductive Observed : Type :=
  | ObsPixels (data : bytes)
  | ObsNull
  | ObsModule (moduleWrapper : ModuleWrapper).

Definition observe (h : gmap BufferId bytes) (v : Value) : Observed :=
  match v with
  | VPixels (Some view) => ObsPixels (view_bytes h view)
  | VPixels None => ObsNull
  | VModule moduleWrapper => ObsModule moduleWrapper
  end.

Definition outcome (r : Completion Value * State) : Completion Observed :=
  match fst r with
  | Normal v => Normal (observe (heap (snd r)) v)
  | Throw e => Throw e
  end.

(** Two assumptions on a decode module, which is foreign code: it leaves the
    size of the linear memory alone, and what it answers and writes to the
    output region is a function of the dimensions and of the input region. *)
Definition keeps_memory_size (m : WasmExports) : Prop :=
  forall width height mem, length (snd (decode m width height mem)) = length mem.


(** [n] callers asking for the module one after the other, before the host
    has completed anything: this is what concurrent requests are on the
    single thread of the event loop. *)
Fixpoint load_n (n : nat) : M (list PromiseId) :=
  match n with
  | O => mret []
  | S n' => p ← _loadModule; ps ← load_n n'; mret (p :: ps)
  end.

(** The host then completes the load: the fetch if one is under way, the
    instantiation if it is reached. *)
Definition complete_load (fetch : Completion bytes) (inst : Completion ModuleWrapper)
    (s : State) : State :=
  host_instantiated inst (host_fetched fetch s).

(** What a load ends with, and the events of a whole load, for a binding
    configured with [binary] and [url]. *)
Definition instantiation_result (inst : Completion ModuleWrapper) : Settled :=
  match inst with
  | Normal moduleWrapper => Fulfilled (VModule moduleWrapper)
  | Throw e => Rejected e
  end.

Definition load_result (binary : option bytes) (fetch : Completion bytes)
    (inst : Completion ModuleWrapper) : Settled :=
  match binary, fetch with
  | None, Throw e => Rejected e
  | _, _ => instantiation_result inst
  end.

Definition instantiation_event (inst : Completion ModuleWrapper) : Event :=
  match inst with
  | Normal _ => EvLoaded
  | Throw e => EvLoadFailed e
  end.

Definition load_events (binary : option bytes) (url : string) (fetch : Completion bytes)
    (inst : Completion ModuleWrapper) : list Event :=
  match binary with
  | Some b => [EvInstantiate b; instantiation_event inst]
  | None =>
      EvFetch url ::
      match fetch with
      | Normal b => [EvInstantiate b; instantiation_event inst]
      | Throw e => [EvLoadFailed e]
      end
  end.

(** Histories in which every call of the decode entry point comes after a
    completed load. *)
Definition decode_after_load (events : list Event) : Prop :=
  forall pre post width height,
    events = pre ++ EvDecode width height :: post -> EvLoaded ∈ pre.

(** A settled outcome that carries a module wrapper. *)
Definition module_outcome (o : Settled) : bool :=
  match o with
  | Fulfilled (VModule _) => true
  | _ => false
  end.

(** Before the first load completes no module wrapper is anywhere: not in
    the binding, not in a promise, not in a queued job. *)
Definition no_module_yet (s : State) : Prop :=
  (forall moduleWrapper, binding s <> Loaded moduleWrapper) /\
  (forall p o, promises s !! p = Some (Done o) -> module_outcome o = false) /\
  (forall j, j ∈ microtasks s -> module_outcome (job_input j) = false).

(** What holds of every state the transcoder can be in. *)
Definition Invariant (s : State) : Prop :=
  decode_after_load (trace s) /\
  (EvLoaded ∈ trace s \/ no_module_yet s) /\
  (forall p stage, binding s = Loading p stage -> is_Some (promises s !! p)).

(** The actions that assign the module path and binary of the instance. *)
Definition reconfigures `{Ktx2DecoderTypes} (a : Action) : bool :=
  match a with
  | Call_initialize | Call_setModulePath _ _ => true
  | _ => false
  end.

End KTX2.

(** * Part III: a concrete decoder configuration

    Two small enumerations and a module whose [decode] fills the output with
    the first encoded byte; they give the properties below inputs to run
    on. *)

Module Example.
Import KTX2.

Inductive Source : Type := ETC1S | UASTC.
Inductive Target : Type := BC7 | RGBA.

#[export] Instance Source_eq_dec : EqDecision Source.
Proof. solve_decision. Defined.

#[export] Instance Target_eq_dec : EqDecision Target.
Proof. solve_decision. Defined.

#[export] Instance types : Ktx2DecoderTypes :=
  {| SourceTextureFormat := Source; TranscodeTarget := Target;
     UASTC4x4 := UASTC; RGBA32 := RGBA;
     KTX2FileReader := unit; IKTX2_ImageDesc := unit |}.

(** 16 bytes per 4x4 block in, 4 bytes per pixel out, right after the
    blocks.  A dimension that is not positive is refused with status 1, a
    memory too small for the two regions with status 2; in neither case is
    the memory touched. *)
Definition blocks (width height : Z) : nat :=
  Z.to_nat (((width + 3) / 4) * ((height + 3) / 4)).

Definition fill_decode (width height : Z) (mem : bytes) : DecodeOutcome * bytes :=
  if (width <=? 0) || (height <=? 0) then (Returns 1, mem)
  else
    let input := (16 * blocks width height)%nat in
    let output := Z.to_nat (width * height * 4) in
    if (length mem <? input + output)%nat then (Returns 2, mem)
    else
      let px := default Byte.x00 (mem !! 0%nat) in
      (Returns 0, write_at input (replicate output px) mem).

Definition fill_module : ModuleWrapper := mkModuleWrapper (mkExports fill_decode).

Definition one_block : bytes := replicate 16 Byte.x2a.

(** Two requests: one 4x4 level, and one with no pixels, which the module
    refuses. *)
Definition level_4x4 : Callback := TranscodeThen 4 4 64 one_block.

Definition level_empty : Callback := TranscodeThen 0 0 0 [].

(** An initialised transcoder; the same with the promise of a call of
    [transcode] pending (promise 1), and the job of that call for the request
    [cb], as queued once the module is loaded. *)
Definition ready : State := snd (initialize initial_state).

Definition waiting : State := set_promises {[ 1%nat := Pending [] ]} ready.

Definition job_of (cb : Callback) : Job := mkJob cb (Fulfilled (VModule fill_module)) 1%nat.

(** A whole run: initialisation, one call, the fetch and the instantiation
    complete, the microtask of the call runs. *)
Definition whole_run (cb : Callback) : list Action :=
  [Call_initialize;
   Call_transcode UASTC RGBA 0 (cb_width cb) (cb_height cb)
     (cb_uncompressedByteLength cb) tt None (cb_encodedData cb);
   Host_fetched (Normal [Byte.x00]);
   Host_instantiated (Normal fill_module);
   Microtask].

(** A module whose decode traps, and a request for an other level. *)
Definition trap_module : ModuleWrapper :=
  mkModuleWrapper (mkExports (fun _ _ mem => (Traps, mem))).

Definition level_8x4 : Callback := TranscodeThen 8 4 128 (replicate 32 Byte.x07).

(** A binary assigned to the static member too late, and a call. *)
Definition late_binary : list Action :=
  [Set_WasmBinary (Some [Byte.x00]);
   Call_transcode UASTC RGBA 0 4 4 64 tt None one_block].




End Example.

(** * Part IV: properties of the configuration *)

Section Configuration.
Import ImageProcessing.

Lemma getter_reads_backing_field (a : Assignment) (c : ImageProcessingConfiguration) :
  getter a c = read (backing a) c.
Proof. destruct a; reflexivity. Qed.

Lemma assign_strictly_equal (a : Assignment) (w : World) :
  strict_equal (read (backing a) (this w)) (assigned a) = true -> assign a w = w.
Proof.
  destruct w as [c n]; destruct c.
  destruct a; intros Heq; cbv in Heq |- *; rewrite Heq; reflexivity.
Qed.

Lemma assign_not_strictly_equal (a : Assignment) (w : World) :
  strict_equal (read (backing a) (this w)) (assigned a) = false ->
  notified (assign a w) = notified w ++ [this (assign a w)] /\
  forall m, read m (this (assign a w))
            = if Member_eqb m (backing a) then assigned a else read m (this w).
Proof.
  destruct w as [c n]; destruct c.
  destruct a; intros Hne; cbv in Hne; (split; [cbv; rewrite Hne; reflexivity|]);
    intros m; destruct m; cbv; rewrite Hne; reflexivity.
Qed.

(** C10, as amended.  For each of the sixteen guarded properties: when the
    backing field [===] the assigned value, the assignment changes nothing
    and notifies nobody; otherwise the observers are notified exactly once,
    with the updated configuration, the property reads back as the assigned
    value, and every other member is as before. *)
Theorem guarded_setter_effect (a : Assignment) (w : World) :
  if strict_equal (read (backing a) (this w)) (assigned a)
  then assign a w = w
  else
    notified (assign a w) = notified w ++ [this (assign a w)] /\
    getter a (this (assign a w)) = assigned a /\
    forall m : Member,
      read m (this (assign a w))
      = if Member_eqb m (backing a) then assigned a else read m (this w).
Proof.
  destruct (strict_equal _ _) eqn:Heq.
  - by apply assign_strictly_equal.
  - destruct (assign_not_strictly_equal a w Heq) as [Hn Hm].
    split; [exact Hn|]. split; [|exact Hm].
    rewrite getter_reads_backing_field, Hm. by destruct a.
Qed.

(** C10, as written, fails on numbers: a property that holds NaN and is
    assigned NaN holds the value it is assigned, yet the setter goes through
    and the observers are notified once more. *)
Lemma reassigning_NaN_notifies_again :
  let w := set_exposure nan (mkWorld (new_ImageProcessingConfiguration 1%positive) []) in
  getter (Set_exposure nan) (this w) = assigned (Set_exposure nan) /\
  assign (Set_exposure nan) w <> w /\
  length (notified (assign (Set_exposure nan) w)) = S (length (notified w)).
Proof.
  cbv zeta. split; [reflexivity|]. split; [|reflexivity].
  intros Heq. apply (f_equal (fun x => length (notified x))) in Heq.
  vm_compute in Heq. discriminate.
Qed.

(** The other side of [===] on numbers: the two zeros are strictly equal, so
    assigning [-0] to a property that holds [+0] is dropped. *)
Lemma assigning_negative_zero_is_dropped :
  let w := mkWorld (new_ImageProcessingConfiguration 1%positive) [] in
  vignetteBlendMode (this w) = 0%float /\
  assign (Set_vignetteBlendMode (-0)%float) w = w.
Proof. split; reflexivity. Qed.

End Configuration.

(** * Part IV, continued: properties of the shader side *)

Section ShaderProperties.
Import ImageProcessing ImageProcessingShader.

Variable ColorCurves_PrepareUniforms : list string -> list string.
Variable Math_tan : number -> number.
Variable Tools_Mix : number -> number -> number -> number.
Variable textures : ObjRef -> BaseTexture.

Lemma prepareDefines_inactive c defines forPostProcess :
  active c forPostProcess = false ->
  prepareDefines textures c defines forPostProcess =
  Some {| IMAGEPROCESSING := false;
          VIGNETTE := false;
          VIGNETTEBLENDMODEMULTIPLY := VIGNETTEBLENDMODEMULTIPLY defines;
          VIGNETTEBLENDMODEOPAQUE := VIGNETTEBLENDMODEOPAQUE defines;
          TONEMAPPING := false;
          TONEMAPPING_ACES := false;
          CONTRAST := false;
          EXPOSURE := false;
          COLORCURVES := false;
          COLORGRADING := false;
          COLORGRADING3D := false;
          SAMPLER3DGREENDEPTH := SAMPLER3DGREENDEPTH defines;
          SAMPLER3DBGRMAP := SAMPLER3DBGRMAP defines;
          DITHER := false;
          IMAGEPROCESSINGPOSTPROCESS := applyByPostProcess c && _isEnabled c;
          SKIPFINALCOLORCLAMP := skipFinalColorClamp c |}.
Proof.
  unfold active, prepareDefines. intros Hact.
  destruct (Bool.eqb forPostProcess (applyByPostProcess c)), (_isEnabled c);
    try discriminate; reflexivity.
Qed.

Lemma prepareDefines_active c defines forPostProcess :
  active c forPostProcess = true ->
  prepareDefines textures c defines forPostProcess =
  Some {| IMAGEPROCESSING :=
            vignetteEnabled c || toneMappingEnabled c
            || negb (PrimFloat.eqb (contrast c) 1) || negb (PrimFloat.eqb (exposure c) 1)
            || (colorCurvesEnabled c && truthy (colorCurves c))
            || (colorGradingEnabled c && truthy (colorGradingTexture c))
            || _ditheringEnabled c;
          VIGNETTE := vignetteEnabled c;
          VIGNETTEBLENDMODEMULTIPLY :=
            PrimFloat.eqb (vignetteBlendMode c) VIGNETTEMODE_MULTIPLY;
          VIGNETTEBLENDMODEOPAQUE :=
            negb (PrimFloat.eqb (vignetteBlendMode c) VIGNETTEMODE_MULTIPLY);
          TONEMAPPING := toneMappingEnabled c;
          TONEMAPPING_ACES :=
            PrimFloat.eqb (_toneMappingType c) ImageProcessing.TONEMAPPING_ACES;
          CONTRAST := negb (PrimFloat.eqb (contrast c) 1);
          EXPOSURE := negb (PrimFloat.eqb (exposure c) 1);
          COLORCURVES := colorCurvesEnabled c && truthy (colorCurves c);
          COLORGRADING := colorGradingEnabled c && truthy (colorGradingTexture c);
          COLORGRADING3D :=
            colorGradingEnabled c &&
            match colorGradingTexture c with
            | js_obj texture => is3D (textures texture)
            | _ => false
            end;
          SAMPLER3DGREENDEPTH := colorGradingWithGreenDepth c;
          SAMPLER3DBGRMAP := colorGradingBGR c;
          DITHER := _ditheringEnabled c;
          IMAGEPROCESSINGPOSTPROCESS := applyByPostProcess c;
          SKIPFINALCOLORCLAMP := skipFinalColorClamp c |}.
Proof.
  unfold active, prepareDefines. intros Hact.
  apply andb_true_iff in Hact as [Hpass Hen]. rewrite Hpass, Hen. cbn [negb orb].
  cbv zeta.
  destruct (PrimFloat.eqb (_toneMappingType c) ImageProcessing.TONEMAPPING_ACES);
    cbn [COLORGRADING set_COLORGRADING set_COLORCURVES];
    unfold colorGradingEnabled, colorGradingTexture;
    destruct (_colorGradingEnabled c), (_colorGradingTexture c); reflexivity.
Qed.

Lemma prepareDefines_never_throws_aux c defines forPostProcess :
  exists d, prepareDefines textures c defines forPostProcess = Some d.
Proof.
  destruct (active c forPostProcess) eqn:Hact; eexists;
    [by apply prepareDefines_active | by apply prepareDefines_inactive].
Qed.

Lemma prepareDefines_never_throws_aux2 c defines forPostProcess :
  exists d, prepareDefines textures c defines forPostProcess = Some d /\
            IMAGEPROCESSING d = any_effect d.
Proof.
  destruct (active c forPostProcess) eqn:Hact; eexists.
  - split; [by apply prepareDefines_active|]. reflexivity.
  - split; [by apply prepareDefines_inactive|]. reflexivity.
Qed.

(** X1. [prepareDefines] never throws: [is3D] is read off the texture only
    when there is one.  And the defines it leaves are consistent:
    IMAGEPROCESSING is set exactly when some effect is, COLORGRADING3D only
    with COLORGRADING, and COLORGRADING and COLORCURVES only when the
    texture, respectively the curves, are there. *)
Theorem prepareDefines_never_throws
    (c : ImageProcessingConfiguration) (defines : IImageProcessingConfigurationDefines)
    (forPostProcess : bool) :
  exists d : IImageProcessingConfigurationDefines,
    prepareDefines textures c defines forPostProcess = Some d /\
    IMAGEPROCESSING d = any_effect d /\
    (COLORGRADING3D d = true -> COLORGRADING d = true) /\
    (COLORGRADING d = true -> exists texture, colorGradingTexture c = js_obj texture) /\
    (COLORCURVES d = true -> exists curves, colorCurves c = js_obj curves).
Proof.
  destruct (active c forPostProcess) eqn:Hact.
  - eexists. split; [by apply prepareDefines_active|].
    cbn. unfold any_effect. cbn. split; [reflexivity|].
    unfold colorGradingEnabled, colorGradingTexture.
    destruct (_colorGradingEnabled c), (_colorGradingTexture c), (colorCurves c);
      cbn; rewrite ?andb_false_r; repeat split; intros; try discriminate; eauto.
  - eexists. split; [by apply prepareDefines_inactive|].
    cbn. repeat split; intros; discriminate.
Qed.


(** X3. [prepareDefines] is idempotent: run again on the defines it left,
    with the same configuration and pass, it leaves them as they are. *)
Theorem prepareDefines_idempotent
    (c : ImageProcessingConfiguration) (defines : IImageProcessingConfigurationDefines)
    (forPostProcess : bool) :
  prepareDefines textures c defines forPostProcess
    ≫= (fun d => prepareDefines textures c d forPostProcess)
  = prepareDefines textures c defines forPostProcess.
Proof.
  destruct (active c forPostProcess) eqn:Hact.
  - rewrite prepareDefines_active by done. cbn. by rewrite prepareDefines_active.
  - rewrite prepareDefines_inactive by done. cbn. by rewrite prepareDefines_inactive.
Qed.

(** X4. The effects belong to one pass: of the defines computed for the
    post-process pass and for the forward pass, at least one set has no
    effect define and no IMAGEPROCESSING, whatever the configuration. *)
Theorem prepareDefines_effects_in_one_pass_only
    (c : ImageProcessingConfiguration) (d1 d2 : IImageProcessingConfigurationDefines) :
  exists post forward : IImageProcessingConfigurationDefines,
    prepareDefines textures c d1 true = Some post /\
    prepareDefines textures c d2 false = Some forward /\
    ((IMAGEPROCESSING post = false /\ any_effect post = false) \/
     (IMAGEPROCESSING forward = false /\ any_effect forward = false)).
Proof.
  destruct (active c true) eqn:Htrue.
  - assert (Hfalse : active c false = false).
    { unfold active in *. destruct (applyByPostProcess c); [reflexivity|discriminate]. }
    eexists _, _. split; [by apply prepareDefines_active|].
    split; [by apply prepareDefines_inactive|]. right. by cbn.
  - destruct (prepareDefines_never_throws_aux c d2 false) as [forward Hf].
    eexists _, forward. split; [by apply prepareDefines_inactive|].
    split; [exact Hf|]. left. by cbn.
Qed.

Lemma PrepareUniforms_no_effect uniforms d :
  any_effect d = false -> PrepareUniforms ColorCurves_PrepareUniforms uniforms d = uniforms.
Proof.
  unfold any_effect, PrepareUniforms. intros Hnone.
  repeat (apply orb_false_iff in Hnone as [Hnone ?]).
  repeat match goal with H : _ = false |- _ => rewrite H; clear H end.
  reflexivity.
Qed.

(** X5. When [prepareDefines] leaves IMAGEPROCESSING unset, [PrepareUniforms]
    and [PrepareSamplers] add nothing to the lists they are given: no uniform
    and no sampler is declared for a pass without image processing. *)
Theorem no_image_processing_declares_nothing
    (c : ImageProcessingConfiguration) (defines d : IImageProcessingConfigurationDefines)
    (forPostProcess : bool) (uniforms samplersList : list string) :
  prepareDefines textures c defines forPostProcess = Some d ->
  IMAGEPROCESSING d = false ->
  PrepareUniforms ColorCurves_PrepareUniforms uniforms d = uniforms /\
  PrepareSamplers samplersList d = samplersList.
Proof.
  intros Hd Hoff.
  destruct (prepareDefines_never_throws_aux2 c defines forPostProcess) as (d' & Hd' & Hany).
  rewrite Hd in Hd'. injection Hd' as <-. rewrite Hany in Hoff.
  split; [by apply PrepareUniforms_no_effect|].
  unfold PrepareSamplers. unfold any_effect in Hoff.
  repeat (apply orb_false_iff in Hoff as [Hoff ?]).
  by match goal with H : COLORGRADING d = false |- _ => rewrite H end.
Qed.

(** X6. [PrepareUniforms] and [PrepareSamplers] only append: whatever the
    defines, the entries already in the list stay where they are, provided
    [ColorCurves.PrepareUniforms] only appends too. *)
Theorem PrepareUniforms_only_appends
    (uniforms samplersList : list string) (d : IImageProcessingConfigurationDefines) :
  (forall u, exists more, ColorCurves_PrepareUniforms u = u ++ more) ->
  (exists more, PrepareUniforms ColorCurves_PrepareUniforms uniforms d = uniforms ++ more) /\
  (exists more, PrepareSamplers samplersList d = samplersList ++ more).
Proof.
  intros Hcurves. split.
  - unfold PrepareUniforms.
    destruct (EXPOSURE d), (CONTRAST d), (COLORGRADING d), (VIGNETTE d), (DITHER d),
      (COLORCURVES d); cbn [orb];
      try match goal with |- context [ColorCurves_PrepareUniforms ?u] =>
            destruct (Hcurves u) as [more ->] end;
      rewrite <- ?app_assoc;
      first [ eexists; reflexivity | exists []; by rewrite app_nil_r ].
  - unfold PrepareSamplers. destruct (COLORGRADING d); [by eexists|].
    exists []. by rewrite app_nil_r.
Qed.

Ltac list_member Hn :=
  repeat (apply elem_of_cons in Hn as [-> | Hn]);
  try (by apply elem_of_nil in Hn);
  repeat first [ apply list_elem_of_here | apply list_elem_of_further ].

(** The calls of [bind], by name. *)
Lemma bind_added_calls c effect overrideAspectRatio :
  exists ks : list EffectCall,
    calls (bind Math_tan Tools_Mix textures c effect overrideAspectRatio)
      = calls effect ++ ks /\
    bound_names ks =
      (if _vignetteEnabled c || _ditheringEnabled c then
         "vInverseScreenSize" ::
         (if _ditheringEnabled c then ["ditherIntensity"] else []) ++
         (if _vignetteEnabled c then ["vignetteSettings1"; "vignetteSettings2"] else [])
       else []) ++
      ["exposureLinear"; "contrast"] ++
      (if truthy (colorGradingTexture c)
       then ["txColorTransform"; "colorTransformSettings"] else []) /\
    (forall curves, _colorCurvesEnabled c = true -> colorCurves c = js_obj curves ->
                    ColorCurves_Bind curves ∈ ks).
Proof.
  unfold bind, colorGradingTexture.
  destruct (_colorCurvesEnabled c), (colorCurves c) as [| |curves],
    (_vignetteEnabled c), (_ditheringEnabled c),
    (_colorGradingTexture c) as [| |texture];
    cbn -[PrimFloat.div PrimFloat.mul PrimFloat.sub PrimFloat.opp PrimFloat.sqrt];
    rewrite <- ?app_assoc; cbn [app];
    (eexists; split; [reflexivity|]; split; [reflexivity|]);
    intros curves' Hen Hcurves; try discriminate;
    injection Hcurves as <-; apply elem_of_cons; by left.
Qed.

(** What [PrepareUniforms] appends by itself, the uniforms of the colour
    curves left aside. *)
Lemma PrepareUniforms_own_uniforms uniforms d :
  PrepareUniforms (fun u => u) uniforms d =
  uniforms
  ++ (if EXPOSURE d then ["exposureLinear"] else [])
  ++ (if CONTRAST d then ["contrast"] else [])
  ++ (if COLORGRADING d then ["colorTransformSettings"] else [])
  ++ (if VIGNETTE d || DITHER d then ["vInverseScreenSize"] else [])
  ++ (if VIGNETTE d then ["vignetteSettings1"; "vignetteSettings2"] else [])
  ++ (if DITHER d then ["ditherIntensity"] else []).
Proof.
  unfold PrepareUniforms.
  destruct (EXPOSURE d), (CONTRAST d), (COLORGRADING d), (VIGNETTE d), (DITHER d),
    (COLORCURVES d); cbn [orb]; rewrite <- ?app_assoc, ?app_nil_r; reflexivity.
Qed.

(** X7. Every uniform and every sampler that [PrepareUniforms] and
    [PrepareSamplers] declare for the defines [prepareDefines] computed is
    bound by [bind] on the same configuration, and when COLORCURVES is
    defined [bind] calls [ColorCurves.Bind] for the uniforms of the curves. *)
Theorem bind_covers_declared_uniforms
    (c : ImageProcessingConfiguration) (defines d : IImageProcessingConfigurationDefines)
    (forPostProcess : bool) (effect : Effect) (overrideAspectRatio : option number) :
  prepareDefines textures c defines forPostProcess = Some d ->
  let ks := added_calls effect
              (bind Math_tan Tools_Mix textures c effect overrideAspectRatio) in
  (forall n, n ∈ PrepareUniforms (fun u => u) [] d -> n ∈ bound_names ks) /\
  (forall n, n ∈ PrepareSamplers [] d -> n ∈ bound_names ks) /\
  (COLORCURVES d = true -> exists curves, ColorCurves_Bind curves ∈ ks).
Proof.
  intros Hd ks.
  destruct (bind_added_calls c effect overrideAspectRatio) as (ks' & Hcalls & Hnames & Hcurves).
  assert (Hks : ks = ks').
  { unfold ks, added_calls. by rewrite Hcalls, drop_app_length. }
  rewrite Hks, Hnames. clear ks Hks Hcalls Hnames.
  destruct (active c forPostProcess) eqn:Hact.
  - rewrite prepareDefines_active in Hd by done. injection Hd as <-.
    rewrite PrepareUniforms_own_uniforms. unfold PrepareSamplers.
    cbn [EXPOSURE CONTRAST COLORGRADING VIGNETTE DITHER COLORCURVES].
    unfold vignetteEnabled, colorCurvesEnabled, colorGradingEnabled, colorGradingTexture.
    split; [|split].
    + destruct (_vignetteEnabled c), (_ditheringEnabled c),
        (PrimFloat.eqb (contrast c) 1), (PrimFloat.eqb (exposure c) 1),
        (_colorGradingEnabled c), (_colorGradingTexture c);
        cbn; intros n Hn; list_member Hn.
    + destruct (_vignetteEnabled c), (_ditheringEnabled c),
        (_colorGradingEnabled c), (_colorGradingTexture c);
        cbn; intros n Hn; list_member Hn.
    + destruct (_colorCurvesEnabled c) eqn:Hen; [|discriminate].
      destruct (colorCurves c) as [| |curves] eqn:Hcc; try discriminate.
      intros _. exists curves. by apply Hcurves.
  - rewrite prepareDefines_inactive in Hd by done. injection Hd as <-.
    rewrite PrepareUniforms_own_uniforms. unfold PrepareSamplers. cbn.
    split; [|split]; [intros n Hn; by apply elem_of_nil in Hn ..|discriminate].
Qed.

(** X8. The deprecated [vignetteCentreX] and [vignetteCentreY] are the same
    storage as [vignetteCenterX] and [vignetteCenterY]: what is assigned
    through one spelling is read through both, every other member is as
    before, and, unlike the guarded properties, the assignment never
    notifies the observers. *)
Theorem vignetteCentre_is_vignetteCenter (value : number) (w : World) :
  (vignetteCenterX (this (set_vignetteCentreX value w)) = value /\
   vignetteCentreX (this (set_vignetteCentreX value w)) = value /\
   notified (set_vignetteCentreX value w) = notified w /\
   forall m : Member,
     read m (this (set_vignetteCentreX value w))
     = if Member_eqb m M_vignetteCenterX then JsNumber value else read m (this w)) /\
  (vignetteCenterY (this (set_vignetteCentreY value w)) = value /\
   vignetteCentreY (this (set_vignetteCentreY value w)) = value /\
   notified (set_vignetteCentreY value w) = notified w /\
   forall m : Member,
     read m (this (set_vignetteCentreY value w))
     = if Member_eqb m M_vignetteCenterY then JsNumber value else read m (this w)).
Proof.
  destruct w as [c n]; destruct c.
  repeat split; try (intros m; destruct m; reflexivity).
Qed.

(** X9. A configuration is not ready only when its colour grading is really
    in use: if [isReady()] is false, the texture is there and not ready, and
    the defines of the active pass have COLORGRADING set. *)
Theorem not_ready_only_with_color_grading
    (c : ImageProcessingConfiguration) (defines d : IImageProcessingConfigurationDefines) :
  isReady textures c = false ->
  _isEnabled c = true ->
  prepareDefines textures c defines (applyByPostProcess c) = Some d ->
  COLORGRADING d = true /\
  exists texture,
    colorGradingTexture c = js_obj texture /\ texture_isReady (textures texture) = false.
Proof.
  intros Hready Hen Hd.
  assert (Hact : active c (applyByPostProcess c) = true).
  { unfold active. rewrite Hen. by destruct (applyByPostProcess c). }
  rewrite prepareDefines_active in Hd by done. injection Hd as <-.
  cbn [COLORGRADING]. unfold isReady in Hready.
  destruct (colorGradingEnabled c); [|discriminate].
  destruct (colorGradingTexture c) as [| |texture]; try discriminate.
  split; [reflexivity|]. by exists texture.
Qed.

(** X10. Once [isEnabled] has been assigned false, the defines of either
    pass have no effect, no IMAGEPROCESSING and no
    IMAGEPROCESSINGPOSTPROCESS, and nothing is declared for them. *)
Theorem disabling_turns_every_effect_off
    (w : World) (defines : IImageProcessingConfigurationDefines) (forPostProcess : bool)
    (uniforms samplersList : list string) :
  exists d : IImageProcessingConfigurationDefines,
    prepareDefines textures (this (assign (Set_isEnabled false) w)) defines forPostProcess
      = Some d /\
    IMAGEPROCESSING d = false /\
    any_effect d = false /\
    IMAGEPROCESSINGPOSTPROCESS d = false /\
    PrepareUniforms ColorCurves_PrepareUniforms uniforms d = uniforms /\
    PrepareSamplers samplersList d = samplersList.
Proof.
  set (c := this (assign (Set_isEnabled false) w)).
  assert (Hoff : _isEnabled c = false).
  { unfold c. destruct w as [c0 n]; destruct c0 as [? ? ? ? ? ? ? ? ? ? ? ? ? ? ? ? ? ? ? ? ? ? en].
    by destruct en. }
  assert (Hact : active c forPostProcess = false).
  { unfold active. rewrite Hoff. apply andb_false_r. }
  eexists. split; [by apply prepareDefines_inactive|].
  cbn. rewrite Hoff, andb_false_r. repeat split.
Qed.

(** X17. [bind] binds little beyond what is declared.  For an enabled
    configuration, every name it binds is a uniform or sampler declared for
    the active pass, or the exposure or the contrast, which are bound in any
    case, or the look-up texture and its settings, which are bound whenever
    a texture is set, colour grading enabled or not. *)
Theorem bind_binds_little_else
    (c : ImageProcessingConfiguration) (defines d : IImageProcessingConfigurationDefines)
    (effect : Effect) (overrideAspectRatio : option number) (n : string) :
  _isEnabled c = true ->
  prepareDefines textures c defines (applyByPostProcess c) = Some d ->
  n ∈ bound_names
        (added_calls effect (bind Math_tan Tools_Mix textures c effect overrideAspectRatio)) ->
  n ∈ PrepareUniforms (fun u => u) [] d ++ PrepareSamplers [] d \/
  n ∈ ["exposureLinear"; "contrast"] \/
  (colorGradingEnabled c = false /\ n ∈ ["txColorTransform"; "colorTransformSettings"]).
Proof.
  intros Hen Hd Hn.
  destruct (bind_added_calls c effect overrideAspectRatio) as (ks' & Hcalls & Hnames & _).
  assert (Hks : added_calls effect
                  (bind Math_tan Tools_Mix textures c effect overrideAspectRatio) = ks').
  { unfold added_calls. by rewrite Hcalls, drop_app_length. }
  rewrite Hks, Hnames in Hn. clear Hks Hcalls Hnames.
  assert (Hact : active c (applyByPostProcess c) = true).
  { unfold active. rewrite Hen. by destruct (applyByPostProcess c). }
  rewrite prepareDefines_active in Hd by done. injection Hd as <-.
  rewrite PrepareUniforms_own_uniforms. unfold PrepareSamplers.
  cbn [EXPOSURE CONTRAST COLORGRADING VIGNETTE DITHER COLORCURVES].
  unfold vignetteEnabled, colorCurvesEnabled, colorGradingEnabled, colorGradingTexture in *.
  destruct (_vignetteEnabled c), (_ditheringEnabled c),
    (PrimFloat.eqb (contrast c) 1), (PrimFloat.eqb (exposure c) 1),
    (_colorGradingEnabled c), (_colorGradingTexture c);
    cbn in Hn |- *;
    repeat (apply elem_of_cons in Hn as [-> | Hn]);
    try (by apply elem_of_nil in Hn);
    first [ left; by repeat first [ apply list_elem_of_here | apply list_elem_of_further ]
          | right; left; by repeat first [ apply list_elem_of_here | apply list_elem_of_further ]
          | right; right; split; [reflexivity|];
            by repeat first [ apply list_elem_of_here | apply list_elem_of_further ] ].
Qed.

End ShaderProperties.

(** * Part IV, concluded: how the guarded assignments compose *)

Section SetterAlgebra.
Import ImageProcessing.

Lemma Member_eqb_eq (m n : Member) : Member_eqb m n = true <-> m = n.
Proof. destruct m, n; split; intros Heq; try discriminate; reflexivity. Qed.

Lemma read_extensional (c1 c2 : ImageProcessingConfiguration) :
  (forall m, read m c1 = read m c2) -> c1 = c2.
Proof.
  intros Hread. destruct c1, c2.
  pose proof (Hread M_colorCurves) as H0.
  pose proof (Hread M_colorCurvesEnabled) as H1.
  pose proof (Hread M_colorGradingTexture) as H2.
  pose proof (Hread M_colorGradingEnabled) as H3.
  pose proof (Hread M_colorGradingWithGreenDepth) as H4.
  pose proof (Hread M_colorGradingBGR) as H5.
  pose proof (Hread M_exposure) as H6.
  pose proof (Hread M_toneMappingEnabled) as H7.
  pose proof (Hread M_toneMappingType) as H8.
  pose proof (Hread M_contrast) as H9.
  pose proof (Hread M_vignetteStretch) as H10.
  pose proof (Hread M_vignetteCenterX) as H11.
  pose proof (Hread M_vignetteCenterY) as H12.
  pose proof (Hread M_vignetteWeight) as H13.
  pose proof (Hread M_vignetteColor) as H14.
  pose proof (Hread M_vignetteCameraFov) as H15.
  pose proof (Hread M_vignetteBlendMode) as H16.
  pose proof (Hread M_vignetteEnabled) as H17.
  pose proof (Hread M_ditheringEnabled) as H18.
  pose proof (Hread M_ditheringIntensity) as H19.
  pose proof (Hread M_skipFinalColorClamp) as H20.
  pose proof (Hread M_applyByPostProcess) as H21.
  pose proof (Hread M_isEnabled) as H22.
  cbn in H0, H1, H2, H3, H4, H5, H6, H7, H8, H9, H10, H11, H12, H13, H14, H15, H16,
    H17, H18, H19, H20, H21, H22.
  clear Hread.
  repeat match goal with
         | H : JsBool _ = JsBool _ |- _ => injection H as ->
         | H : JsNumber _ = JsNumber _ |- _ => injection H as ->
         | H : JsRef _ = JsRef _ |- _ => injection H as ->
         | H : JsColor _ = JsColor _ |- _ => injection H as ->
         end.
  reflexivity.
Qed.

Lemma read_assign (a : Assignment) (w : World) (m : Member) :
  read m (this (assign a w)) =
  if strict_equal (read (backing a) (this w)) (assigned a) then read m (this w)
  else if Member_eqb m (backing a) then assigned a else read m (this w).
Proof.
  destruct (strict_equal _ _) eqn:Heq.
  - by rewrite assign_strictly_equal.
  - by apply assign_not_strictly_equal.
Qed.

Lemma notified_assign (a : Assignment) (w : World) :
  length (notified (assign a w)) =
  (length (notified w)
   + if strict_equal (read (backing a) (this w)) (assigned a) then 0 else 1)%nat.
Proof.
  destruct (strict_equal _ _) eqn:Heq.
  - rewrite assign_strictly_equal by done. lia.
  - destruct (assign_not_strictly_equal a w Heq) as [-> _].
    rewrite length_app. reflexivity.
Qed.

(** X15. Guarded properties are independent: two assignments to different
    properties give the same configuration in either order, and notify the
    observers the same number of times. *)
Theorem assignments_to_different_properties_commute (a1 a2 : Assignment) (w : World) :
  backing a1 <> backing a2 ->
  this (assign a1 (assign a2 w)) = this (assign a2 (assign a1 w)) /\
  length (notified (assign a1 (assign a2 w)))
  = length (notified (assign a2 (assign a1 w))).
Proof.
  intros Hne.
  assert (H12 : Member_eqb (backing a1) (backing a2) = false).
  { destruct (Member_eqb (backing a1) (backing a2)) eqn:Heq; [|reflexivity].
    by apply Member_eqb_eq in Heq. }
  assert (H21 : Member_eqb (backing a2) (backing a1) = false).
  { destruct (Member_eqb (backing a2) (backing a1)) eqn:Heq; [|reflexivity].
    apply Member_eqb_eq in Heq. by symmetry in Heq. }
  assert (Hheld1 : read (backing a1) (this (assign a2 w)) = read (backing a1) (this w)).
  { rewrite read_assign, H12. by destruct (strict_equal _ _). }
  assert (Hheld2 : read (backing a2) (this (assign a1 w)) = read (backing a2) (this w)).
  { rewrite read_assign, H21. by destruct (strict_equal _ _). }
  split.
  - apply read_extensional. intros m.
    rewrite (read_assign a1 (assign a2 w) m), (read_assign a2 (assign a1 w) m),
      Hheld1, Hheld2, (read_assign a2 w m), (read_assign a1 w m).
    destruct (strict_equal (read (backing a1) (this w)) (assigned a1)),
      (strict_equal (read (backing a2) (this w)) (assigned a2)); try reflexivity.
    destruct (Member_eqb m (backing a1)) eqn:Hm1; [|reflexivity].
    destruct (Member_eqb m (backing a2)) eqn:Hm2; [|reflexivity].
    apply Member_eqb_eq in Hm1, Hm2. congruence.
  - rewrite (notified_assign a1 (assign a2 w)), (notified_assign a2 (assign a1 w)),
      Hheld1, Hheld2, (notified_assign a2 w), (notified_assign a1 w). lia.
Qed.

(** X16. Assigning a value twice in a row is assigning it once, for every
    value that is strictly equal to itself (all but the number NaN): the
    second assignment changes nothing and notifies nobody. *)
Theorem assigning_twice_is_assigning_once (a : Assignment) (w : World) :
  strict_equal (assigned a) (assigned a) = true ->
  assign a (assign a w) = assign a w.
Proof.
  intros Hself. apply assign_strictly_equal.
  rewrite read_assign.
  destruct (strict_equal (read (backing a) (this w)) (assigned a)) eqn:Heq; [exact Heq|].
  assert (Hm : Member_eqb (backing a) (backing a) = true) by by apply Member_eqb_eq.
  by rewrite Hm.
Qed.

End SetterAlgebra.

(** * Part V: properties of the transcoder *)

Section Transcoder.
Import KTX2.
Context `{Ktx2DecoderTypes}.

(** ** Equations of the operations *)

Lemma working_memory_store contents s :
  working_memory (store_memory contents s) = contents.
Proof.
  unfold working_memory, store_memory, buffer_bytes. cbn.
  by rewrite lookup_insert_eq.
Qed.

Lemma _prepareTranscoding_eq width height uncompressedByteLength encodedData k s :
  _prepareTranscoding width height uncompressedByteLength encodedData k s =
  if uncompressedByteLength <? 0 then (Throw RangeError, s)
  else
    let inputLength := length encodedData in
    let outputLength :=
      if _transcodeInPlace s then 0%nat else Z.to_nat uncompressedByteLength in
    (Normal (mkUint8Array (wasmMemory s) 0 inputLength,
             if _transcodeInPlace s then None
             else Some (mkUint8Array (wasmMemory s) inputLength outputLength)),
     store_memory (prepared encodedData outputLength (working_memory s)) s).
Proof.
  unfold _prepareTranscoding. destruct (uncompressedByteLength <? 0); reflexivity.
Qed.

Lemma call_decode_eq transcoder width height s :
  call_decode transcoder width height s =
  let r := decode transcoder width height (working_memory s) in
  let s' := store_memory (snd r) (set_trace (trace s ++ [EvDecode width height]) s) in
  match fst r with
  | Returns code => (Normal code, s')
  | Traps => (Throw RuntimeError, s')
  end.
Proof.
  unfold call_decode, emit, modify, gets, mbind, M_bind; cbn.
  change (working_memory (set_trace (trace s ++ [EvDecode width height]) s))
    with (working_memory s).
  destruct (decode transcoder width height _) as [[code|] mem']; reflexivity.
Qed.

(** The callback on a module wrapper, step by step. *)
Lemma transcode_callback_eq width height uncompressedByteLength encodedData wrapper s :
  transcode_callback width height uncompressedByteLength encodedData (VModule wrapper) s =
  if uncompressedByteLength <? 0 then (Throw RangeError, s)
  else
    let output :=
      if _transcodeInPlace s then 0%nat else Z.to_nat uncompressedByteLength in
    let mem1 := prepared encodedData output (working_memory s) in
    let r := decode (module wrapper) width height mem1 in
    let s2 := store_memory (snd r)
                (set_trace (trace s ++ [EvDecode width height]) (store_memory mem1 s)) in
    match fst r with
    | Traps => (Throw RuntimeError, s2)
    | Returns code =>
        if code =? 0 then
          if _transcodeInPlace s then (Throw TypeError, s2)
          else
            let data := take output (drop (length encodedData) (snd r)) in
            let b := fresh (dom (heap s2)) in
            (Normal (VPixels (Some (mkUint8Array b 0 (length data)))),
             set_heap (<[b := data]> (heap s2)) s2)
        else (Normal (VPixels None), s2)
    end.
Proof.
  unfold transcode_callback, mbind, M_bind.
  rewrite _prepareTranscoding_eq.
  destruct (uncompressedByteLength <? 0); [reflexivity|].
  cbv beta iota zeta. rewrite call_decode_eq. cbv beta iota zeta.
  rewrite working_memory_store.
  change (trace (store_memory ?m s)) with (trace s).
  destruct (decode (module wrapper) width height _) as [[code|] mem'] eqn:Hdec;
    cbn [fst snd]; [|reflexivity].
  destruct (code =? 0); [|reflexivity].
  destruct (_transcodeInPlace s) eqn:Hflag; [reflexivity|].
  unfold slice. cbv beta iota zeta.
  match goal with |- context [view_bytes (heap ?s2) ?v] =>
    assert (Hview : view_bytes (heap s2) v
                    = take (Z.to_nat uncompressedByteLength)
                        (drop (length encodedData) mem'));
    [|rewrite Hview; reflexivity]
  end.
  unfold view_bytes, buffer_bytes, store_memory. cbn.
  by rewrite lookup_insert_eq.
Qed.

Lemma length_write_at_0 data mem :
  length (write_at 0 data mem) = (length data `max` length mem)%nat.
Proof.
  unfold write_at. rewrite take_0, Nat.add_0_l, app_nil_l, length_app, length_drop. lia.
Qed.

Lemma length_grow n mem : length (grow n mem) = (n `max` length mem)%nat.
Proof. unfold grow. rewrite length_app, length_replicate. lia. Qed.

(** The linear memory as [_prepareTranscoding] leaves it: the encoded bytes
    at the start, and room for the output region. *)
Lemma length_prepared encodedData output contents :
  (length encodedData + output <= length (prepared encodedData output contents))%nat.
Proof. unfold prepared. rewrite length_write_at_0, length_grow. lia. Qed.


Lemma settle_pending p o s reactions :
  promises s !! p = Some (Pending reactions) ->
  promises (settle p o s) !! p = Some (Done o).
Proof.
  intros Hp. unfold settle. rewrite Hp. cbn. apply lookup_insert_eq.
Qed.

Lemma view_bytes_own_buffer (h : gmap BufferId bytes) b data :
  view_bytes (<[b := data]> h) (mkUint8Array b 0 (length data)) = data.
Proof.
  unfold view_bytes, buffer_bytes. cbn. rewrite lookup_insert_eq. cbn.
  by rewrite drop_0, firstn_all.
Qed.


(** What the callback leaves alone. *)
Lemma transcode_callback_frame width height uncompressedByteLength encodedData v s :
  let s' := snd (transcode_callback width height uncompressedByteLength encodedData v s) in
  _transcodeInPlace s' = _transcodeInPlace s /\
  promises s' = promises s /\
  microtasks s' = microtasks s /\
  binding s' = binding s /\
  wasmMemory s' = wasmMemory s /\
  _modulePath s' = _modulePath s /\
  _wasmBinary s' = _wasmBinary s.
Proof.
  destruct v as [wrapper|r]; [|by cbn].
  cbv zeta. rewrite transcode_callback_eq.
  destruct (_ <? 0); [by cbn|]. cbv zeta.
  destruct (decode _ _ _ _) as [[code|] mem']; cbn [fst snd]; [|by cbn].
  destruct (code =? 0); [|by cbn].
  destruct (_transcodeInPlace s) eqn:Hflag; cbn; rewrite ?Hflag; done.
Qed.


(** C1. [CanTranscode] answers true exactly for the triple (UASTC4x4,
    RGBA32, linear) and false for every other one.  It is a function of its
    three arguments alone: no state goes in or out. *)
Theorem CanTranscode_exactly_uastc_rgba32_linear
    (src : SourceTextureFormat) (dst : TranscodeTarget) (isInGammaSpace : bool) :
  (CanTranscode src dst isInGammaSpace = true <->
     src = UASTC4x4 /\ dst = RGBA32 /\ isInGammaSpace = false) /\
  (CanTranscode src dst isInGammaSpace = false <->
     ~ (src = UASTC4x4 /\ dst = RGBA32 /\ isInGammaSpace = false)).
Proof.
  assert (Ht : CanTranscode src dst isInGammaSpace = true <->
               src = UASTC4x4 /\ dst = RGBA32 /\ isInGammaSpace = false).
  { unfold CanTranscode.
    rewrite !andb_true_iff, !bool_decide_eq_true, negb_true_iff. tauto. }
  split; [exact Ht|].
  rewrite <- Ht. destruct (CanTranscode src dst isInGammaSpace); split; congruence.
Qed.

(** C2. When the decode entry point returns a non-zero status, the callback
    of [transcode] returns [null] normally, and the promise [transcode]
    handed out is fulfilled with [null]: it is not rejected. *)
Theorem transcode_nonzero_status_resolves_null
    (j : Job) (s s1 : State) (wrapper : ModuleWrapper) (reactions : list Reaction)
    (views : Uint8Array * option Uint8Array) (code : Z) (mem' : bytes) :
  job_input j = Fulfilled (VModule wrapper) ->
  promises s !! job_derived j = Some (Pending reactions) ->
  _prepareTranscoding (cb_width (job_handler j)) (cb_height (job_handler j))
    (cb_uncompressedByteLength (job_handler j)) (cb_encodedData (job_handler j)) 4 s
    = (Normal views, s1) ->
  decode (module wrapper) (cb_width (job_handler j)) (cb_height (job_handler j))
    (working_memory s1) = (Returns code, mem') ->
  code <> 0 ->
  fst (run_callback (job_handler j) (VModule wrapper) s) = Normal (VPixels None) /\
  promises (run_job j s) !! job_derived j = Some (Done (Fulfilled (VPixels None))).
Proof.
  intros Hin Hq Hprep Hdec Hcode.
  rewrite _prepareTranscoding_eq in Hprep.
  destruct (_ <? 0) eqn:Hneg; [discriminate|].
  cbv zeta in Hprep. injection Hprep as _ Hs1. subst s1.
  rewrite working_memory_store in Hdec.
  assert (Hrun : exists s2, run_callback (job_handler j) (VModule wrapper) s
                            = (Normal (VPixels None), s2) /\ promises s2 = promises s).
  { unfold run_callback. rewrite transcode_callback_eq, Hneg. cbv zeta.
    rewrite Hdec. cbn [fst snd].
    apply Z.eqb_neq in Hcode. rewrite Hcode.
    eexists; split; reflexivity. }
  destruct Hrun as (s2 & Hrun & Hpr).
  split; [by rewrite Hrun|].
  unfold run_job. rewrite Hin, Hrun.
  apply settle_pending with reactions. by rewrite Hpr.
Qed.


(** C8. With a module that keeps the size of the linear memory, the array a
    successful transcode returns has as many bytes as the request's
    uncompressed byte length, which for an RGBA32 request is width x height
    x 4. *)
Theorem transcode_result_byte_length
    (wrapper : ModuleWrapper) (width height uncompressedByteLength : Z)
    (encodedData : bytes) (s s' : State) (copy : Uint8Array) :
  keeps_memory_size (module wrapper) ->
  uncompressedByteLength = width * height * 4 ->
  transcode_callback width height uncompressedByteLength encodedData (VModule wrapper) s
    = (Normal (VPixels (Some copy)), s') ->
  Z.of_nat (byteLength copy) = uncompressedByteLength /\
  Z.of_nat (byteLength copy) = width * height * 4 /\
  length (view_bytes (heap s') copy) = byteLength copy.
Proof.
  intros Hsize Hlen Hrun.
  rewrite transcode_callback_eq in Hrun.
  destruct (uncompressedByteLength <? 0) eqn:Hneg; [discriminate|].
  apply Z.ltb_ge in Hneg. cbv zeta in Hrun.
  destruct (_transcodeInPlace s).
  { destruct (fst _) as [code|]; [|discriminate].
    destruct (code =? 0); discriminate. }
  set (mem1 := prepared encodedData (Z.to_nat uncompressedByteLength) (working_memory s)) in *.
  pose proof (Hsize width height mem1) as Hkeep.
  pose proof (length_prepared encodedData (Z.to_nat uncompressedByteLength)
                (working_memory s)) as Hroom.
  fold mem1 in Hroom.
  destruct (decode (module wrapper) width height mem1) as [[code|] mem']; [|discriminate].
  cbn [fst snd] in Hrun, Hkeep.
  destruct (code =? 0); [|discriminate].
  injection Hrun as Hcopy Hs'. subst copy s'.
  cbn [byteLength heap set_heap].
  rewrite view_bytes_own_buffer.
  assert (Hout : length (take (Z.to_nat uncompressedByteLength)
                           (drop (length encodedData) mem'))
                 = Z.to_nat uncompressedByteLength).
  { rewrite length_take, length_drop, Hkeep. lia. }
  rewrite Hout. repeat split; lia.
Qed.



(** ** What the operations do to the fields of the transcoder *)

Lemma settle_fields p o s :
  _transcodeInPlace (settle p o s) = _transcodeInPlace s /\
  _modulePath (settle p o s) = _modulePath s /\
  _wasmBinary (settle p o s) = _wasmBinary s /\
  binding (settle p o s) = binding s /\
  trace (settle p o s) = trace s /\
  heap (settle p o s) = heap s.
Proof.
  unfold settle. destruct (promises s !! p) as [[reactions|done_]|]; by cbn.
Qed.

Lemma promise_then_fields p cb s :
  let s' := snd (promise_then p cb s) in
  _transcodeInPlace s' = _transcodeInPlace s /\
  _modulePath s' = _modulePath s /\
  _wasmBinary s' = _wasmBinary s /\
  binding s' = binding s /\
  trace s' = trace s /\
  heap s' = heap s.
Proof.
  unfold promise_then, mbind, M_bind, gets. cbn.
  destruct (promises s !! p) as [[reactions|done_]|]; by cbn.
Qed.

Lemma _loadModule_fields s :
  let s' := snd (_loadModule s) in
  _transcodeInPlace s' = _transcodeInPlace s /\
  _modulePath s' = _modulePath s /\
  _wasmBinary s' = _wasmBinary s /\
  heap s' = heap s.
Proof.
  unfold _loadModule, start_load, mbind, M_bind, gets. cbn.
  destruct (binding s); cbn; try done; destruct (_wasmBinary s) eqn:Hbin; by cbn.
Qed.

Lemma _loadModule_trace s :
  trace (snd (_loadModule s)) =
    trace s ++
    match binding s with
    | Unloaded | Failed =>
        match _wasmBinary s with
        | Some binary => [EvInstantiate binary]
        | None => [EvFetch (_modulePath s)]
        end
    | Loading _ _ | Loaded _ => []
    end.
Proof.
  unfold _loadModule, start_load, mbind, M_bind, gets. cbn.
  destruct (binding s); cbn; rewrite ?app_nil_r; try reflexivity;
    destruct (_wasmBinary s); reflexivity.
Qed.

Lemma run_job_flag j s :
  _transcodeInPlace (run_job j s) = _transcodeInPlace s.
Proof.
  unfold run_job, run_callback. destruct (job_input j) as [v|e].
  - pose proof (transcode_callback_frame (cb_width (job_handler j))
                  (cb_height (job_handler j)) (cb_uncompressedByteLength (job_handler j))
                  (cb_encodedData (job_handler j)) v s) as [Hflag _].
    cbv zeta in Hflag.
    destruct (transcode_callback _ _ _ _ v s) as [[x|e] s'];
      cbn [snd] in Hflag; rewrite <- Hflag; apply settle_fields.
  - apply settle_fields.
Qed.

Lemma step_flag (a : Action) (s : State) :
  _transcodeInPlace (step a s) =
  match a with
  | Call_initialize => false
  | _ => _transcodeInPlace s
  end.
Proof.
  destruct a; cbn [step]; try reflexivity.
  - unfold transcode, mbind, M_bind.
    pose proof (_loadModule_fields s) as [Hload _]. cbv zeta in Hload.
    destruct (_loadModule s) as [[p|e] s0]; cbn [snd] in *; [|done].
    rewrite <- Hload. apply promise_then_fields.
  - unfold host_fetched. destruct (binding s) as [|p [|]| |]; try reflexivity.
    destruct r as [binary|e]; [reflexivity|].
    by rewrite (proj1 (settle_fields _ _ _)).
  - unfold host_instantiated. destruct (binding s) as [|p [|]| |]; try reflexivity.
    destruct r as [wrapper|e]; by rewrite (proj1 (settle_fields _ _ _)).
  - unfold run_microtask. destruct (microtasks s) as [|j rest]; [reflexivity|].
    by rewrite run_job_flag.
Qed.

Lemma run_keeps_flag_false (actions : list Action) (s : State) :
  _transcodeInPlace s = false -> _transcodeInPlace (run actions s) = false.
Proof.
  revert s. induction actions as [|a actions IH]; intros s Hs; [exact Hs|].
  cbn. apply IH. rewrite step_flag. by destruct a.
Qed.

(** C6. [initialize()] completes and leaves [_transcodeInPlace] false, and
    whatever happens to the transcoder afterwards (method calls, static
    members set, host completions, microtasks) leaves it false. *)
Theorem transcodeInPlace_false_after_initialize (s : State) (actions : list Action) :
  fst (initialize s) = Normal tt /\
  _transcodeInPlace (snd (initialize s)) = false /\
  _transcodeInPlace (run actions (snd (initialize s))) = false.
Proof.
  split; [reflexivity|]. split; [reflexivity|].
  by apply run_keeps_flag_false.
Qed.

(** C7. The static members start as the CDN URL and no binary;
    [initialize()] hands both to [setModulePath]; and the load that a first
    [_loadModule()] starts afterwards instantiates the inline binary when
    there is one, without any fetch, and fetches the URL otherwise. *)
Theorem initialize_configures_module_source (s : State) :
  WasmModuleURL initial_state
    = "https://cdn.babylonjs.com/ktx2Transcoders/1/uastc_rgba8_unorm_v2.wasm" /\
  WasmBinary initial_state = None /\
  snd (initialize s)
    = snd (setModulePath (WasmModuleURL s) (WasmBinary s)
             (set__transcodeInPlace false s)) /\
  _modulePath (snd (initialize s)) = WasmModuleURL s /\
  _wasmBinary (snd (initialize s)) = WasmBinary s /\
  trace (snd (_loadModule (snd (initialize s)))) =
    trace s ++
    match binding s with
    | Unloaded | Failed =>
        match WasmBinary s with
        | Some binary => [EvInstantiate binary]
        | None => [EvFetch (WasmModuleURL s)]
        end
    | Loading _ _ | Loaded _ => []
    end.
Proof.
  repeat split. apply _loadModule_trace.
Qed.

(** ** One load per binding *)

Lemma bind_eq {A B : Type} (m : M A) (f : A -> M B) (s s' : State) (a : A) :
  m s = (Normal a, s') -> (m ≫= f) s = f a s'.
Proof. intros Hm. unfold mbind, M_bind. by rewrite Hm. Qed.

Lemma _loadModule_loading (s : State) (p : PromiseId) (stage : Stage) :
  binding s = Loading p stage -> _loadModule s = (Normal p, s).
Proof.
  intros Hb. unfold _loadModule, mbind, M_bind, gets. cbv beta iota.
  rewrite Hb. reflexivity.
Qed.

Lemma _loadModule_start (s : State) :
  binding s = Unloaded \/ binding s = Failed ->
  _loadModule s = start_load s.
Proof.
  intros Hb. unfold _loadModule, mbind, M_bind, gets. cbv beta iota.
  destruct Hb as [-> | ->]; reflexivity.
Qed.

Lemma start_load_eq (s : State) :
  start_load s =
  let p := fresh (dom (promises s)) in
  (Normal p,
   match _wasmBinary s with
   | Some binary =>
       set_binding (Loading p Instantiating)
         (set_trace (trace s ++ [EvInstantiate binary])
            (set_promises (<[p := Pending []]> (promises s)) s))
   | None =>
       set_binding (Loading p Fetching)
         (set_trace (trace s ++ [EvFetch (_modulePath s)])
            (set_promises (<[p := Pending []]> (promises s)) s))
   end).
Proof.
  unfold start_load, mbind, M_bind, gets, new_promise. cbv beta iota zeta.
  cbn [_wasmBinary set_promises]. destruct (_wasmBinary s); reflexivity.
Qed.

Lemma load_n_loading (n : nat) (s : State) (p : PromiseId) (stage : Stage) :
  binding s = Loading p stage ->
  load_n n s = (Normal (replicate n p), s).
Proof.
  intros Hb. induction n as [|n IH]; [reflexivity|].
  cbn [load_n].
  rewrite (bind_eq _ _ _ _ _ (_loadModule_loading s p stage Hb)).
  rewrite (bind_eq _ _ _ _ _ IH). reflexivity.
Qed.

Lemma settle_pending_eq p o s reactions :
  promises s !! p = Some (Pending reactions) ->
  settle p o s =
  set_microtasks
    (microtasks s ++ map (fun r => mkJob (handler r) o (derived r)) reactions)
    (set_promises (<[p := Done o]> (promises s)) s).
Proof. intros Hp. unfold settle. by rewrite Hp. Qed.

Lemma lookup_fresh_promise (s : State) : promises s !! fresh (dom (promises s)) = None.
Proof. apply not_elem_of_dom, is_fresh. Qed.

(** C4. From an unloaded binding, any number of requests made before the
    host answers start one load and get one and the same pending promise;
    the binding holds that single handle; the whole load fetches at most
    once and instantiates at most once; and what the host answers settles
    that promise, so that every caller gets the same module or the same
    failure. *)
Theorem concurrent_loads_share_one_load (s : State) (n : nat) :
  binding s = Unloaded ->
  exists (p : PromiseId) (s1 : State) (stage : Stage),
    load_n (S n) s = (Normal (replicate (S n) p), s1) /\
    promises s !! p = None /\
    promises s1 !! p = Some (Pending []) /\
    binding s1 = Loading p stage /\
    trace s1 = trace s ++ [match _wasmBinary s with
                           | Some binary => EvInstantiate binary
                           | None => EvFetch (_modulePath s)
                           end] /\
    forall (fetch : Completion bytes) (inst : Completion ModuleWrapper),
      promises (complete_load fetch inst s1) !! p
        = Some (Done (load_result (_wasmBinary s) fetch inst)) /\
      trace (complete_load fetch inst s1)
        = trace s ++ load_events (_wasmBinary s) (_modulePath s) fetch inst.
Proof.
  intros Hb.
  set (p := fresh (dom (promises s))).
  assert (Hp : promises s !! p = None) by apply lookup_fresh_promise.
  destruct (_wasmBinary s) as [binary|] eqn:Hbin.
  - set (s1 := set_binding (Loading p Instantiating)
                 (set_trace (trace s ++ [EvInstantiate binary])
                    (set_promises (<[p := Pending []]> (promises s)) s))).
    assert (Hload : _loadModule s = (Normal p, s1)).
    { rewrite _loadModule_start, start_load_eq by auto. by rewrite Hbin. }
    exists p, s1, Instantiating.
    split.
    { cbn [load_n]. rewrite (bind_eq _ _ _ _ _ Hload).
      by rewrite (bind_eq _ _ _ _ _ (load_n_loading n s1 p Instantiating eq_refl)). }
    split; [exact Hp|].
    split; [apply lookup_insert_eq|].
    split; [reflexivity|].
    split; [reflexivity|].
    intros fetch inst. unfold complete_load.
    assert (Hf : host_fetched fetch s1 = s1) by reflexivity.
    rewrite Hf. unfold host_instantiated. cbn [binding s1 set_binding].
    destruct inst as [wrapper|e]; unfold settle; cbn;
      rewrite lookup_insert_eq; cbn; rewrite lookup_insert_eq, <- app_assoc; done.
  - set (s1 := set_binding (Loading p Fetching)
                 (set_trace (trace s ++ [EvFetch (_modulePath s)])
                    (set_promises (<[p := Pending []]> (promises s)) s))).
    assert (Hload : _loadModule s = (Normal p, s1)).
    { rewrite _loadModule_start, start_load_eq by auto. by rewrite Hbin. }
    exists p, s1, Fetching.
    split.
    { cbn [load_n]. rewrite (bind_eq _ _ _ _ _ Hload).
      by rewrite (bind_eq _ _ _ _ _ (load_n_loading n s1 p Fetching eq_refl)). }
    split; [exact Hp|].
    split; [apply lookup_insert_eq|].
    split; [reflexivity|].
    split; [reflexivity|].
    intros fetch inst. unfold complete_load, host_fetched.
    cbn [binding s1 set_binding].
    destruct fetch as [binary|e].
    + unfold host_instantiated. cbn [binding set_binding].
      destruct inst as [wrapper|e]; unfold settle; cbn;
        rewrite lookup_insert_eq; cbn; rewrite lookup_insert_eq, <- !app_assoc; done.
    + rewrite (settle_pending_eq p (Rejected e) _ []) by apply lookup_insert_eq.
      unfold host_instantiated. cbn.
      rewrite lookup_insert_eq, <- !app_assoc; done.
Qed.

(** ** Promises, step by step *)

Lemma promise_then_eq p cb s :
  promise_then p cb s =
  let q := fresh (dom (promises s)) in
  match promises s !! p with
  | None => (Throw TypeError, s)
  | Some (Pending reactions) =>
      (Normal q,
       set_promises (<[p := Pending (reactions ++ [mkReaction cb q])]>
                       (<[q := Pending []]> (promises s))) s)
  | Some (Done o) =>
      (Normal q,
       set_microtasks (microtasks s ++ [mkJob cb o q])
         (set_promises (<[q := Pending []]> (promises s)) s))
  end.
Proof.
  unfold promise_then, mbind, M_bind, gets. cbv beta iota zeta.
  destruct (promises s !! p) as [[reactions|o]|]; reflexivity.
Qed.

Lemma run_job_trace cb input q s :
  trace (run_job (mkJob cb input q) s) =
  trace s ++
  match input with
  | Fulfilled (VModule _) =>
      if cb_uncompressedByteLength cb <? 0 then []
      else [EvDecode (cb_width cb) (cb_height cb)]
  | _ => []
  end.
Proof.
  unfold run_job, run_callback. cbn [job_input job_handler job_derived].
  destruct input as [[wrapper|r]|e].
  - rewrite transcode_callback_eq.
    destruct (_ <? 0).
    { rewrite (proj1 (proj2 (proj2 (proj2 (proj2 (settle_fields _ _ _)))))).
      by rewrite app_nil_r. }
    cbv zeta.
    destruct (decode _ _ _ _) as [[code|] mem']; cbn [fst snd].
    + destruct (code =? 0); [destruct (_transcodeInPlace s)|];
        by rewrite (proj1 (proj2 (proj2 (proj2 (proj2 (settle_fields _ _ _)))))).
    + by rewrite (proj1 (proj2 (proj2 (proj2 (proj2 (settle_fields _ _ _)))))).
  - cbn. rewrite (proj1 (proj2 (proj2 (proj2 (proj2 (settle_fields _ _ _)))))).
    by rewrite app_nil_r.
  - rewrite (proj1 (proj2 (proj2 (proj2 (proj2 (settle_fields _ _ _)))))).
    by rewrite app_nil_r.
Qed.

(** The call itself: the load is asked for first, then the callback is
    attached to the promise of the load. *)
Lemma transcode_eq src dst level width height uncompressedByteLength
    (ktx2Reader : KTX2FileReader) (imageDesc : option IKTX2_ImageDesc) encodedData s :
  transcode src dst level width height uncompressedByteLength ktx2Reader imageDesc
    encodedData s =
  match _loadModule s with
  | (Normal p, s0) =>
      promise_then p (TranscodeThen width height uncompressedByteLength encodedData) s0
  | (Throw e, s0) => (Throw e, s0)
  end.
Proof. reflexivity. Qed.

Lemma _loadModule_eq s :
  _loadModule s =
  match binding s with
  | Unloaded | Failed => start_load s
  | Loading p _ => (Normal p, s)
  | Loaded moduleWrapper =>
      (Normal (fresh (dom (promises s))),
       set_promises (<[fresh (dom (promises s))
                       := Done (Fulfilled (VModule moduleWrapper))]> (promises s)) s)
  end.
Proof.
  unfold _loadModule, mbind, M_bind, gets. cbv beta iota.
  destruct (binding s); reflexivity.
Qed.

(** ** The invariant *)

Lemma decode_after_load_app (events more : list Event) :
  decode_after_load events ->
  EvLoaded ∈ events \/ (forall width height, EvDecode width height ∉ more) ->
  decode_after_load (events ++ more).
Proof.
  intros Hold Hmore pre post width height Heq.
  apply app_eq_app in Heq as [l [[Hev Hpost] | [Hpre Hm]]].
  - destruct l as [|x l].
    + cbn in Hpost. rewrite app_nil_r in Hev. subst pre.
      destruct Hmore as [Hloaded | Hnone]; [exact Hloaded|].
      exfalso. apply (Hnone width height). rewrite <- Hpost. left.
    + cbn in Hpost. injection Hpost as Hx Hpost. subst x.
      by apply (Hold pre l width height).
  - destruct Hmore as [Hloaded | Hnone].
    + subst pre. apply elem_of_app. by left.
    + exfalso. apply (Hnone width height). rewrite Hm.
      apply elem_of_app. right. left.
Qed.

Lemma settle_promises_mono p o s x :
  is_Some (promises s !! x) -> is_Some (promises (settle p o s) !! x).
Proof.
  intros Hx. unfold settle. destruct (promises s !! p) as [[reactions|done_]|]; try done.
  cbn. apply lookup_insert_is_Some'. by right.
Qed.

Lemma settle_no_module p o s :
  module_outcome o = false -> no_module_yet s -> no_module_yet (settle p o s).
Proof.
  intros Ho (Hb & Hp & Hj). unfold settle.
  destruct (promises s !! p) as [[reactions|done_]|] eqn:Hlook; try done.
  repeat split; cbn.
  - exact Hb.
  - intros x o' Hx. apply lookup_insert_Some in Hx as [[_ Heq] | [_ Hx]].
    + by injection Heq as <-.
    + by apply (Hp x).
  - intros j Hin. apply elem_of_app in Hin as [Hin | Hin]; [by apply Hj|].
    apply list_elem_of_fmap in Hin as (r & -> & _). exact Ho.
Qed.

Lemma promise_then_no_module p cb s :
  no_module_yet s -> no_module_yet (snd (promise_then p cb s)).
Proof.
  intros (Hb & Hp & Hj). rewrite promise_then_eq. cbv zeta.
  destruct (promises s !! p) as [[reactions|o]|] eqn:Hlook; cbn [snd]; [| |done].
  - repeat split; cbn; [exact Hb| |exact Hj].
    intros x o' Hx. apply lookup_insert_Some in Hx as [[_ Heq] | [_ Hx]]; [done|].
    apply lookup_insert_Some in Hx as [[_ Heq] | [_ Hx]]; [done|]. by apply (Hp x).
  - repeat split; cbn; [exact Hb| |].
    + intros x o' Hx. apply lookup_insert_Some in Hx as [[_ Heq] | [_ Hx]]; [done|].
      by apply (Hp x).
    + intros j Hin. apply elem_of_app in Hin as [Hin | Hin]; [by apply Hj|].
      apply list_elem_of_singleton in Hin as ->. cbn. by apply (Hp p).
Qed.

Lemma promise_then_promises_mono p cb s x :
  is_Some (promises s !! x) -> is_Some (promises (snd (promise_then p cb s)) !! x).
Proof.
  intros Hx. rewrite promise_then_eq. cbv zeta.
  destruct (promises s !! p) as [[reactions|o]|]; cbn; [| |done].
  - apply lookup_insert_is_Some'. right. apply lookup_insert_is_Some'. by right.
  - apply lookup_insert_is_Some'. by right.
Qed.

Lemma start_load_no_module s :
  no_module_yet s -> no_module_yet (snd (start_load s)).
Proof.
  intros (Hb & Hp & Hj). rewrite start_load_eq. cbv zeta. cbn [snd].
  assert (Hfresh : forall x o,
             <[fresh (dom (promises s)) := Pending []]> (promises s) !! x = Some (Done o) ->
             module_outcome o = false).
  { intros x o Hx. apply lookup_insert_Some in Hx as [[_ Heq] | [_ Hx]]; [done|].
    by apply (Hp x). }
  destruct (_wasmBinary s); (split; [|split]); cbn; done.
Qed.

Lemma _loadModule_no_module s :
  no_module_yet s -> no_module_yet (snd (_loadModule s)).
Proof.
  intros Hno. rewrite _loadModule_eq.
  destruct (binding s) as [|p stage|wrapper|] eqn:Hbind; cbn [snd].
  - by apply start_load_no_module.
  - exact Hno.
  - destruct Hno as (Hb & _). by destruct (Hb wrapper).
  - by apply start_load_no_module.
Qed.

Lemma _loadModule_handle s :
  (forall q stage, binding s = Loading q stage -> is_Some (promises s !! q)) ->
  let r := _loadModule s in
  (forall x, is_Some (promises s !! x) -> is_Some (promises (snd r) !! x)) /\
  (forall q stage, binding (snd r) = Loading q stage -> is_Some (promises (snd r) !! q)) /\
  exists p, fst r = Normal p /\ is_Some (promises (snd r) !! p).
Proof.
  intros Hwf. cbv zeta. rewrite _loadModule_eq.
  destruct (binding s) as [|p stage|wrapper|] eqn:Hbind; cbn [fst snd].
  - rewrite start_load_eq. cbv zeta. cbn [fst snd].
    destruct (_wasmBinary s); cbn; repeat split;
      try (intros x Hx; apply lookup_insert_is_Some'; by right);
      try (intros q stage [= <- _]; apply lookup_insert_is_Some'; by left);
      eexists; (split; [reflexivity|]); apply lookup_insert_is_Some'; by left.
  - repeat split; [done| |].
    + rewrite Hbind. exact Hwf.
    + exists p. split; [reflexivity|]. by apply (Hwf p stage).
  - cbn. repeat split.
    + intros x Hx. apply lookup_insert_is_Some'. by right.
    + rewrite Hbind. done.
    + eexists. split; [reflexivity|]. apply lookup_insert_is_Some'. by left.
  - rewrite start_load_eq. cbv zeta. cbn [fst snd].
    destruct (_wasmBinary s); cbn; repeat split;
      try (intros x Hx; apply lookup_insert_is_Some'; by right);
      try (intros q stage [= <- _]; apply lookup_insert_is_Some'; by left);
      eexists; (split; [reflexivity|]); apply lookup_insert_is_Some'; by left.
Qed.

Lemma Invariant_same_history (s s' : State) :
  trace s' = trace s -> binding s' = binding s ->
  promises s' = promises s -> microtasks s' = microtasks s ->
  Invariant s -> Invariant s'.
Proof.
  intros Ht Hb Hp Hm (Hord & Hmod & Hwf). unfold Invariant, no_module_yet.
  rewrite Ht, Hb, Hp, Hm. done.
Qed.

Lemma run_job_handle j s :
  binding (run_job j s) = binding s /\
  forall x, is_Some (promises s !! x) -> is_Some (promises (run_job j s) !! x).
Proof.
  unfold run_job, run_callback. destruct (job_input j) as [v|e].
  - pose proof (transcode_callback_frame (cb_width (job_handler j))
                  (cb_height (job_handler j)) (cb_uncompressedByteLength (job_handler j))
                  (cb_encodedData (job_handler j)) v s) as (_ & Hp & _ & Hb & _).
    cbv zeta in Hp, Hb.
    destruct (transcode_callback _ _ _ _ v s) as [[x|e] s']; cbn [snd] in Hp, Hb;
      (split; [rewrite <- Hb; apply settle_fields|]);
      intros y Hy; apply settle_promises_mono; by rewrite Hp.
  - split; [apply settle_fields|]. intros y Hy. by apply settle_promises_mono.
Qed.

Lemma run_job_no_module j s :
  module_outcome (job_input j) = false ->
  no_module_yet s -> no_module_yet (run_job j s).
Proof.
  intros Hj Hno. unfold run_job, run_callback.
  destruct (job_input j) as [[wrapper|r]|e]; [discriminate| |].
  - cbn. by apply settle_no_module.
  - by apply settle_no_module.
Qed.

Lemma step_invariant (a : Action) (s : State) : Invariant s -> Invariant (step a s).
Proof.
  intros Hinv. pose proof Hinv as (Hord & Hmod & Hwf).
  destruct a; cbn [step].
  - by apply (Invariant_same_history s).
  - by apply (Invariant_same_history s).
  - exact Hinv.
  - exact Hinv.
  - by apply (Invariant_same_history s).
  - by apply (Invariant_same_history s).
  - (* transcode *)
    rewrite transcode_eq.
    pose proof (_loadModule_trace s) as Htr.
    pose proof (_loadModule_handle s Hwf) as (Hmono & Hwf0 & p & Hp & Hsome).
    cbv zeta in Hmono, Hwf0, Hp, Hsome.
    destruct (_loadModule s) as [[p0|e] s0] eqn:Hload; cbn [fst snd] in *; [|discriminate].
    injection Hp as ->.
    set (cb := TranscodeThen width height uncompressedByteLength encodedData).
    pose proof (promise_then_fields p cb s0) as (_ & _ & _ & Hb1 & Ht1 & _).
    cbv zeta in Hb1, Ht1.
    split; [|split].
    + rewrite Ht1, Htr. apply decode_after_load_app; [exact Hord|].
      right. intros w h Hin.
      destruct (binding s); try destruct (_wasmBinary s);
        repeat (apply elem_of_cons in Hin as [Hin|Hin]; [discriminate|]);
        by apply elem_of_nil in Hin.
    + rewrite Ht1, Htr. destruct Hmod as [Hloaded | Hno].
      * left. apply elem_of_app. by left.
      * right. apply promise_then_no_module.
        pose proof (_loadModule_no_module s Hno) as Hno0. by rewrite Hload in Hno0.
    + intros q stage Hq. rewrite Hb1 in Hq.
      apply promise_then_promises_mono. by apply (Hwf0 q stage).
  - (* the fetch completes *)
    unfold host_fetched. destruct (binding s) as [|p [|]| |] eqn:Hbind; try exact Hinv.
    destruct r as [binary|e].
    + split; [|split]; cbn.
      * apply decode_after_load_app; [exact Hord|]. right. intros w h Hin.
        apply list_elem_of_singleton in Hin. discriminate.
      * destruct Hmod as [Hloaded | (Hb & Hp & Hj)].
        { left. apply elem_of_app. by left. }
        right. repeat split; done.
      * intros q stage [= <- _]. by apply (Hwf p Fetching).
    + split; [|split].
      * rewrite (proj1 (proj2 (proj2 (proj2 (proj2 (settle_fields _ _ _)))))). cbn.
        apply decode_after_load_app; [exact Hord|]. right. intros w h Hin.
        apply list_elem_of_singleton in Hin. discriminate.
      * rewrite (proj1 (proj2 (proj2 (proj2 (proj2 (settle_fields _ _ _)))))). cbn.
        destruct Hmod as [Hloaded | (Hb & Hp & Hj)].
        { left. apply elem_of_app. by left. }
        right. apply settle_no_module; [reflexivity|]. repeat split; done.
      * intros q stage Hq.
        rewrite (proj1 (proj2 (proj2 (proj2 (settle_fields _ _ _))))) in Hq. discriminate.
  - (* the instantiation completes *)
    unfold host_instantiated. destruct (binding s) as [|p [|]| |] eqn:Hbind; try exact Hinv.
    destruct r as [wrapper|e].
    + split; [|split].
      * rewrite (proj1 (proj2 (proj2 (proj2 (proj2 (settle_fields _ _ _)))))). cbn.
        apply decode_after_load_app; [exact Hord|]. right. intros w h Hin.
        apply list_elem_of_singleton in Hin. discriminate.
      * rewrite (proj1 (proj2 (proj2 (proj2 (proj2 (settle_fields _ _ _)))))). cbn.
        left. apply elem_of_app. right. left.
      * intros q stage Hq.
        rewrite (proj1 (proj2 (proj2 (proj2 (settle_fields _ _ _))))) in Hq. discriminate.
    + split; [|split].
      * rewrite (proj1 (proj2 (proj2 (proj2 (proj2 (settle_fields _ _ _)))))). cbn.
        apply decode_after_load_app; [exact Hord|]. right. intros w h Hin.
        apply list_elem_of_singleton in Hin. discriminate.
      * rewrite (proj1 (proj2 (proj2 (proj2 (proj2 (settle_fields _ _ _)))))). cbn.
        destruct Hmod as [Hloaded | (Hb & Hp & Hj)].
        { left. apply elem_of_app. by left. }
        right. apply settle_no_module; [reflexivity|]. repeat split; done.
      * intros q stage Hq.
        rewrite (proj1 (proj2 (proj2 (proj2 (settle_fields _ _ _))))) in Hq. discriminate.
  - (* a microtask *)
    unfold run_microtask. destruct (microtasks s) as [|j rest] eqn:Hqueue; [exact Hinv|].
    set (s' := set_microtasks rest s).
    assert (Hjob : j = mkJob (job_handler j) (job_input j) (job_derived j)) by by destruct j.
    pose proof (run_job_trace (job_handler j) (job_input j) (job_derived j) s') as Htr.
    rewrite <- Hjob in Htr. change (trace s') with (trace s) in Htr.
    pose proof (run_job_handle j s') as (Hb & Hmono).
    split; [|split].
    + rewrite Htr. apply decode_after_load_app; [exact Hord|].
      destruct Hmod as [Hloaded | (_ & _ & Hj)]; [by left|].
      right. intros w h Hin.
      assert (Hjm : module_outcome (job_input j) = false) by (apply Hj; rewrite Hqueue; left).
      destruct (job_input j) as [[wrapper|r]|e]; [discriminate| |];
        by apply elem_of_nil in Hin.
    + rewrite Htr. destruct Hmod as [Hloaded | Hno].
      { left. apply elem_of_app. by left. }
      right. destruct Hno as (Hnb & Hnp & Hnj).
      apply run_job_no_module.
      * apply Hnj. rewrite Hqueue. left.
      * repeat split; [exact Hnb|exact Hnp|].
        intros j' Hin. apply Hnj. rewrite Hqueue. by right.
    + intros q stage Hq. rewrite Hb in Hq. apply Hmono. by apply (Hwf q stage).
Qed.

Lemma initial_state_invariant : Invariant initial_state.
Proof.
  split; [|split].
  - intros pre post w h Heq. by destruct pre.
  - right. repeat split; [done| |].
    + intros p o Hp. unfold initial_state in Hp. cbn [promises] in Hp.
      by rewrite lookup_empty in Hp.
    + intros j Hj. by apply elem_of_nil in Hj.
  - intros p stage Hb. discriminate.
Qed.

Lemma run_invariant (actions : list Action) (s : State) :
  Invariant s -> Invariant (run actions s).
Proof.
  revert s. induction actions as [|a actions IH]; intros s Hs; [exact Hs|].
  cbn. apply IH. by apply step_invariant.
Qed.

(** C5. In every state the transcoder can reach, a call of [transcode]
    first asks for the module and then attaches its callback to the promise
    of the load, without calling decode; the callback is queued only when
    that promise settles.  Run on a rejected load, the job rejects the
    promise of the call with the same error and calls nothing; run on a
    fulfilled load it calls decode with the width and height of the request
    (once the working region is prepared).  Over the whole history, no
    decode call comes before a completed load. *)
Theorem transcode_awaits_load_before_decode
    (actions : list Action) (src : SourceTextureFormat) (dst : TranscodeTarget)
    (level width height uncompressedByteLength : Z) (ktx2Reader : KTX2FileReader)
    (imageDesc : option IKTX2_ImageDesc) (encodedData : bytes) :
  let s := run actions initial_state in
  let cb := TranscodeThen width height uncompressedByteLength encodedData in
  decode_after_load (trace s) /\
  exists (p q : PromiseId) (s0 s1 : State),
    _loadModule s = (Normal p, s0) /\
    transcode src dst level width height uncompressedByteLength ktx2Reader imageDesc
      encodedData s = (Normal q, s1) /\
    promises s0 !! q = None /\
    promises s1 !! q = Some (Pending []) /\
    trace s1 = trace s0 /\
    (forall w h, EvDecode w h ∉ drop (length (trace s)) (trace s1)) /\
    decode_after_load (trace s1) /\
    ((exists reactions,
        promises s0 !! p = Some (Pending reactions) /\
        promises s1 !! p = Some (Pending (reactions ++ [mkReaction cb q])) /\
        microtasks s1 = microtasks s0 /\
        forall o,
          microtasks (settle p o s1)
          = microtasks s1
            ++ map (fun r => mkJob (handler r) o (derived r)) reactions
            ++ [mkJob cb o q])
     \/
     (exists o,
        promises s0 !! p = Some (Done o) /\
        microtasks s1 = microtasks s0 ++ [mkJob cb o q])) /\
    (forall (t : State) (e : JsError) (reactions : list Reaction),
       promises t !! q = Some (Pending reactions) ->
       trace (run_job (mkJob cb (Rejected e) q) t) = trace t /\
       promises (run_job (mkJob cb (Rejected e) q) t) !! q = Some (Done (Rejected e))) /\
    (forall (t : State) (wrapper : ModuleWrapper),
       trace (run_job (mkJob cb (Fulfilled (VModule wrapper)) q) t)
       = trace t ++ (if uncompressedByteLength <? 0 then []
                     else [EvDecode width height])).
Proof.
  intros s cb.
  assert (Hinv : Invariant s) by apply run_invariant, initial_state_invariant.
  pose proof Hinv as (Hord & _ & Hwf).
  split; [exact Hord|].
  pose proof (step_invariant
                (Call_transcode src dst level width height uncompressedByteLength
                   ktx2Reader imageDesc encodedData) s Hinv) as (Hord1 & _).
  cbn [step] in Hord1.
  pose proof (_loadModule_trace s) as Htr.
  pose proof (_loadModule_handle s Hwf) as (_ & _ & p & Hp & Hsome).
  cbv zeta in Hp, Hsome.
  rewrite transcode_eq in Hord1 |- *.
  destruct (_loadModule s) as [[p0|e] s0] eqn:Hload; cbn [fst snd] in *; [|discriminate].
  injection Hp as ->.
  fold cb in Hord1 |- *.
  set (q := fresh (dom (promises s0))).
  assert (Hq : promises s0 !! q = None) by apply lookup_fresh_promise.
  assert (Hpq : p <> q).
  { intros Heq. rewrite Heq, Hq in Hsome. by destruct Hsome. }
  assert (Hrej : forall (t : State) (e : JsError) (reactions : list Reaction),
             promises t !! q = Some (Pending reactions) ->
             trace (run_job (mkJob cb (Rejected e) q) t) = trace t /\
             promises (run_job (mkJob cb (Rejected e) q) t) !! q
               = Some (Done (Rejected e))).
  { intros t e reactions Ht. unfold run_job. cbn [job_input job_derived].
    split; [apply settle_fields|]. by apply settle_pending with reactions. }
  assert (Hful : forall (t : State) (wrapper : ModuleWrapper),
             trace (run_job (mkJob cb (Fulfilled (VModule wrapper)) q) t)
             = trace t ++ (if uncompressedByteLength <? 0 then []
                           else [EvDecode width height])).
  { intros t wrapper. apply run_job_trace. }
  assert (Hnodec : forall evs : list Event,
             (evs = match binding s with
                    | Unloaded | Failed =>
                        match _wasmBinary s with
                        | Some binary => [EvInstantiate binary]
                        | None => [EvFetch (_modulePath s)]
                        end
                    | Loading _ _ | Loaded _ => []
                    end) ->
             forall w h, EvDecode w h ∉ drop (length (trace s)) (trace s ++ evs)).
  { intros evs -> w h. rewrite drop_app_length. intros Hin.
    destruct (binding s); try destruct (_wasmBinary s);
      repeat (apply elem_of_cons in Hin as [Hin|Hin]; [discriminate|]);
      by apply elem_of_nil in Hin. }
  rewrite promise_then_eq in Hord1 |- *. cbv zeta in Hord1 |- *. fold q in Hord1 |- *.
  destruct (promises s0 !! p) as [[reactions|o]|] eqn:Hlook; [| |by destruct Hsome].
  - eexists p, q, s0, _. cbn [snd] in Hord1.
    split; [reflexivity|]. split; [reflexivity|]. split; [exact Hq|].
    cbn [promises set_promises trace microtasks].
    split; [by rewrite lookup_insert_ne, lookup_insert_eq|].
    split; [reflexivity|].
    split; [rewrite Htr; by apply Hnodec|].
    split; [exact Hord1|].
    split; [|split; [exact Hrej|exact Hful]].
    left. exists reactions.
    split; [exact Hlook|]. split; [apply lookup_insert_eq|]. split; [reflexivity|].
    intros o.
    rewrite (settle_pending_eq p o _ (reactions ++ [mkReaction cb q]))
      by apply lookup_insert_eq.
    cbn [microtasks set_microtasks set_promises]. by rewrite map_app.
  - eexists p, q, s0, _. cbn [snd] in Hord1.
    split; [reflexivity|]. split; [reflexivity|]. split; [exact Hq|].
    cbn [promises set_promises set_microtasks trace microtasks].
    split; [apply lookup_insert_eq|].
    split; [reflexivity|].
    split; [rewrite Htr; by apply Hnodec|].
    split; [exact Hord1|].
    split; [|split; [exact Hrej|exact Hful]].
    right. exists o. split; [exact Hlook|reflexivity].
Qed.

(** ** More on the callback and on the queue *)

Lemma transcode_callback_other_buffers
    width height uncompressedByteLength encodedData v s (b : BufferId) :
  b <> wasmMemory s ->
  is_Some (heap s !! b) ->
  heap (snd (transcode_callback width height uncompressedByteLength encodedData v s)) !! b
  = heap s !! b.
Proof.
  intros Hwm Hb. destruct v as [wrapper|r]; [|reflexivity].
  rewrite transcode_callback_eq.
  destruct (_ <? 0); [reflexivity|]. cbv zeta.
  assert (Hframe : forall m1 m2 tr,
             heap (store_memory m2 (set_trace tr (store_memory m1 s))) !! b = heap s !! b).
  { intros m1 m2 tr. unfold store_memory. cbn. by rewrite !lookup_insert_ne by congruence. }
  destruct (decode _ _ _ _) as [[code|] mem']; cbn [fst snd]; [|apply Hframe].
  destruct (code =? 0); [|apply Hframe].
  destruct (_transcodeInPlace s); [apply Hframe|].
  cbv zeta. cbn [snd heap set_heap].
  match goal with |- <[fresh (dom (heap ?s0)) := _]> _ !! _ = _ => set (sd := s0) end.
  assert (Hsd : heap sd !! b = heap s !! b) by apply Hframe.
  assert (Hnone : heap sd !! fresh (dom (heap sd)) = None)
    by apply not_elem_of_dom, is_fresh.
  rewrite lookup_insert_ne; [exact Hsd|].
  intros Heq. rewrite <- Hsd, <- Heq, Hnone in Hb. by destruct Hb.
Qed.

(** X11. The array one transcode returned still holds the same bytes after
    any later callback of [transcode] has run, whatever that one is given
    and however it ends: a callback writes the linear memory and a buffer of
    its own, nothing else. *)
Theorem earlier_result_survives_later_transcode
    (wrapper : ModuleWrapper) (width height uncompressedByteLength : Z)
    (encodedData : bytes) (s s1 : State) (copy : Uint8Array)
    (width' height' uncompressedByteLength' : Z) (encodedData' : bytes) (v : Value) :
  transcode_callback width height uncompressedByteLength encodedData (VModule wrapper) s
    = (Normal (VPixels (Some copy)), s1) ->
  view_bytes
    (heap (snd (transcode_callback width' height' uncompressedByteLength' encodedData' v s1)))
    copy
  = view_bytes (heap s1) copy.
Proof.
  intros Hrun. rewrite transcode_callback_eq in Hrun.
  destruct (uncompressedByteLength <? 0); [discriminate|]. cbv zeta in Hrun.
  destruct (decode _ _ _ _) as [[code|] mem']; cbn [fst snd] in Hrun; [|discriminate].
  destruct (code =? 0); [|discriminate].
  destruct (_transcodeInPlace s); [discriminate|].
  injection Hrun as Hcopy Hs1.
  match type of Hs1 with set_heap (<[?b0 := ?d0]> ?h0) _ = _ =>
    set (b := b0) in *; set (data := d0) in *; set (hd := h0) in * end.
  assert (Hb : hd !! b = None) by apply not_elem_of_dom, is_fresh.
  assert (Hwm : b <> wasmMemory s1).
  { subst s1. cbn. intros Heq. unfold hd in Hb.
    rewrite Heq, lookup_insert_eq in Hb. discriminate. }
  assert (Hin : is_Some (heap s1 !! b)).
  { subst s1. cbn. rewrite lookup_insert_eq. by eexists. }
  unfold view_bytes, buffer_bytes. rewrite <- Hcopy. cbn [buffer].
  by rewrite transcode_callback_other_buffers.
Qed.

(** X12. When the decode entry point throws, the promise of the call is
    rejected with what was thrown, it is not resolved with [null], and no
    result buffer is made: the buffers are those there were, and the linear
    memory. *)
Theorem decode_exception_rejects_the_call
    (j : Job) (s s1 : State) (wrapper : ModuleWrapper) (reactions : list Reaction)
    (views : Uint8Array * option Uint8Array) (mem' : bytes) :
  job_input j = Fulfilled (VModule wrapper) ->
  promises s !! job_derived j = Some (Pending reactions) ->
  _prepareTranscoding (cb_width (job_handler j)) (cb_height (job_handler j))
    (cb_uncompressedByteLength (job_handler j)) (cb_encodedData (job_handler j)) 4 s
    = (Normal views, s1) ->
  decode (module wrapper) (cb_width (job_handler j)) (cb_height (job_handler j))
    (working_memory s1) = (Traps, mem') ->
  promises (run_job j s) !! job_derived j = Some (Done (Rejected RuntimeError)) /\
  dom (heap (run_job j s)) = {[ wasmMemory s ]} ∪ dom (heap s).
Proof.
  intros Hin Hq Hprep Hdec.
  rewrite _prepareTranscoding_eq in Hprep.
  destruct (_ <? 0) eqn:Hneg; [discriminate|].
  cbv zeta in Hprep. injection Hprep as _ Hs1. subst s1.
  rewrite working_memory_store in Hdec.
  unfold run_job, run_callback. rewrite Hin, transcode_callback_eq, Hneg. cbv zeta.
  rewrite Hdec. cbn [fst snd]. split.
  - by apply settle_pending with reactions.
  - rewrite (proj2 (proj2 (proj2 (proj2 (proj2 (settle_fields _ _ _)))))).
    unfold store_memory. cbn.
    by rewrite !dom_insert_L, (assoc_L (∪)), (idemp_L (∪)).
Qed.

(** X13. Callbacks are queued in the order of the calls: of two calls of
    [transcode] made while the module is loading, the job of the first is
    queued before the job of the second when the load completes, after the
    jobs of those who were waiting before, and both get the same module. *)
Theorem callbacks_are_queued_in_call_order
    (s : State) (p : PromiseId) (stage : Stage) (reactions : list Reaction)
    (src1 src2 : SourceTextureFormat) (dst1 dst2 : TranscodeTarget)
    (level1 width1 height1 length1 level2 width2 height2 length2 : Z)
    (reader1 reader2 : KTX2FileReader) (desc1 desc2 : option IKTX2_ImageDesc)
    (data1 data2 : bytes) (binary : bytes) (wrapper : ModuleWrapper) :
  binding s = Loading p stage ->
  promises s !! p = Some (Pending reactions) ->
  exists (q1 q2 : PromiseId) (s1 s2 : State),
    transcode src1 dst1 level1 width1 height1 length1 reader1 desc1 data1 s
      = (Normal q1, s1) /\
    transcode src2 dst2 level2 width2 height2 length2 reader2 desc2 data2 s1
      = (Normal q2, s2) /\
    q1 <> q2 /\
    microtasks (complete_load (Normal binary) (Normal wrapper) s2)
    = microtasks s
      ++ map (fun r => mkJob (handler r) (Fulfilled (VModule wrapper)) (derived r)) reactions
      ++ [mkJob (TranscodeThen width1 height1 length1 data1)
            (Fulfilled (VModule wrapper)) q1;
          mkJob (TranscodeThen width2 height2 length2 data2)
            (Fulfilled (VModule wrapper)) q2].
Proof.
  intros Hb Hp.
  set (cb1 := TranscodeThen width1 height1 length1 data1).
  set (cb2 := TranscodeThen width2 height2 length2 data2).
  set (q1 := fresh (dom (promises s))).
  set (pr1 := <[p := Pending (reactions ++ [mkReaction cb1 q1])]>
                (<[q1 := Pending []]> (promises s))).
  set (s1 := set_promises pr1 s).
  set (q2 := fresh (dom pr1)).
  set (pr2 := <[p := Pending ((reactions ++ [mkReaction cb1 q1]) ++ [mkReaction cb2 q2])]>
                (<[q2 := Pending []]> pr1)).
  set (s2 := set_promises pr2 s1).
  assert (H1 : transcode src1 dst1 level1 width1 height1 length1 reader1 desc1 data1 s
               = (Normal q1, s1)).
  { rewrite transcode_eq, (_loadModule_loading s p stage Hb), promise_then_eq. cbv zeta.
    by rewrite Hp. }
  assert (Hp1 : promises s1 !! p = Some (Pending (reactions ++ [mkReaction cb1 q1]))).
  { apply lookup_insert_eq. }
  assert (H2 : transcode src2 dst2 level2 width2 height2 length2 reader2 desc2 data2 s1
               = (Normal q2, s2)).
  { rewrite transcode_eq, (_loadModule_loading s1 p stage Hb), promise_then_eq. cbv zeta.
    by rewrite Hp1. }
  exists q1, q2, s1, s2. split; [exact H1|]. split; [exact H2|].
  assert (Hq1 : pr1 !! q1 = Some (Pending [])).
  { unfold pr1. rewrite lookup_insert_ne, lookup_insert_eq; [done|].
    intros Heq. pose proof (lookup_fresh_promise s) as Hf. fold q1 in Hf.
    rewrite <- Heq, Hp in Hf. discriminate. }
  split.
  { intros Heq. assert (Hf : pr1 !! q2 = None) by apply not_elem_of_dom, is_fresh.
    rewrite <- Heq, Hq1 in Hf. discriminate. }
  assert (Hp2 : promises s2 !! p
                = Some (Pending ((reactions ++ [mkReaction cb1 q1]) ++ [mkReaction cb2 q2]))).
  { apply lookup_insert_eq. }
  unfold complete_load.
  assert (Hsettle : forall t : State,
             promises t = promises s2 -> microtasks t = microtasks s ->
             microtasks (settle p (Fulfilled (VModule wrapper)) t)
             = microtasks s
               ++ map (fun r => mkJob (handler r) (Fulfilled (VModule wrapper)) (derived r))
                    reactions
               ++ [mkJob cb1 (Fulfilled (VModule wrapper)) q1;
                   mkJob cb2 (Fulfilled (VModule wrapper)) q2]).
  { intros t Hpt Hmt.
    rewrite (settle_pending_eq p _ t ((reactions ++ [mkReaction cb1 q1]) ++ [mkReaction cb2 q2]))
      by (by rewrite Hpt).
    cbn [microtasks set_microtasks]. rewrite Hmt, !map_app, <- !app_assoc. reflexivity. }
  destruct stage.
  - unfold host_fetched. change (binding s2) with (binding s). rewrite Hb.
    unfold host_instantiated. cbn [binding set_binding]. by apply Hsettle.
  - assert (Hf : host_fetched (Normal binary) s2 = s2).
    { unfold host_fetched. change (binding s2) with (binding s). by rewrite Hb. }
    rewrite Hf. unfold host_instantiated. change (binding s2) with (binding s). rewrite Hb.
    by apply Hsettle.
Qed.

Lemma run_job_module_source j s :
  _modulePath (run_job j s) = _modulePath s /\ _wasmBinary (run_job j s) = _wasmBinary s.
Proof.
  unfold run_job, run_callback. destruct (job_input j) as [v|e].
  - pose proof (transcode_callback_frame (cb_width (job_handler j))
                  (cb_height (job_handler j)) (cb_uncompressedByteLength (job_handler j))
                  (cb_encodedData (job_handler j)) v s) as (_ & _ & _ & _ & _ & Hpath & Hbin).
    cbv zeta in Hpath, Hbin.
    destruct (transcode_callback _ _ _ _ v s) as [[x|e] s']; cbn [snd] in Hpath, Hbin;
      rewrite <- Hpath, <- Hbin;
      match goal with |- context [settle ?q ?o ?t] =>
        destruct (settle_fields q o t) as (_ & -> & -> & _) end; by split.
  - destruct (settle_fields (job_derived j) (Rejected e) s) as (_ & -> & -> & _). by split.
Qed.

Lemma step_module_source (a : Action) (s : State) :
  reconfigures a = false ->
  _modulePath (step a s) = _modulePath s /\ _wasmBinary (step a s) = _wasmBinary s.
Proof.
  destruct a; cbn [reconfigures step]; intros Hre; try discriminate; try (by split).
  - unfold transcode, mbind, M_bind.
    pose proof (_loadModule_fields s) as (_ & Hpath & Hbin & _). cbv zeta in Hpath, Hbin.
    destruct (_loadModule s) as [[p|e] s0]; cbn [snd] in *; [|done].
    rewrite <- Hpath, <- Hbin.
    pose proof (promise_then_fields p
                  (TranscodeThen width height uncompressedByteLength encodedData) s0)
      as (_ & Hp1 & Hb1 & _).
    by split.
  - unfold host_fetched. destruct (binding s) as [|p [|]| |]; try (by split).
    destruct r as [binary|e]; [by split|].
    match goal with |- context [settle ?q ?o ?t] =>
      destruct (settle_fields q o t) as (_ & -> & -> & _) end. by split.
  - unfold host_instantiated. destruct (binding s) as [|p [|]| |]; try (by split).
    destruct r as [wrapper|e];
      match goal with |- context [settle ?q ?o ?t] =>
        destruct (settle_fields q o t) as (_ & -> & -> & _) end; by split.
  - unfold run_microtask. destruct (microtasks s) as [|j rest]; [by split|].
    apply (run_job_module_source j (set_microtasks rest s)).
Qed.

(** X14. The static members are read when [initialize()] runs: the module
    path and the binary of the instance are those the static members held
    then, and they stay so through everything that is not a new
    [initialize()] or [setModulePath()], an assignment to the static members
    included. *)
Theorem static_members_are_read_at_initialize (s : State) (actions : list Action) :
  Forall (fun a => reconfigures a = false) actions ->
  _modulePath (run actions (snd (initialize s))) = WasmModuleURL s /\
  _wasmBinary (run actions (snd (initialize s))) = WasmBinary s.
Proof.
  intros Hall.
  assert (Hgen : forall t,
             _modulePath (run actions t) = _modulePath t /\
             _wasmBinary (run actions t) = _wasmBinary t).
  { induction Hall as [|a actions Ha Hall IH]; intros t; [by split|].
    change (run (a :: actions) t) with (run actions (step a t)).
    destruct (IH (step a t)) as [-> ->]. by apply step_module_source. }
  destruct (Hgen (snd (initialize s))) as [-> ->]. by split.
Qed.

End Transcoder.

(** * Part VI: the properties on the concrete decoder *)

Section OnTheExample.
Import KTX2 Example.

Lemma fill_decode_keeps_memory_size : keeps_memory_size (module fill_module).
Proof.
  intros width height mem. cbn [module decode fill_module]. unfold fill_decode.
  destruct ((width <=? 0) || (height <=? 0)); [reflexivity|]. cbv zeta.
  destruct (length mem <? _)%nat eqn:Hroom; [reflexivity|].
  apply Nat.ltb_ge in Hroom. cbn [snd]. unfold write_at.
  rewrite !length_app, length_take, length_drop, length_replicate. lia.
Qed.


(** Whole runs.  A 4x4 level: one fetch, one instantiation, one decode, and
    64 bytes of the first encoded byte.  A failed fetch: the promise of the
    call is rejected with the error of the fetch and decode is never
    called; a later call starts a new load. *)
Lemma whole_run_4x4_level :
  let s := run (whole_run level_4x4) initial_state in
  trace s = [EvFetch default_WasmModuleURL; EvInstantiate [Byte.x00]; EvLoaded;
             EvDecode 4 4] /\
  promises s !! 1%nat
    = Some (Done (Fulfilled (VPixels (Some (mkUint8Array 1%nat 0%nat 64%nat))))) /\
  heap s !! 1%nat = Some (replicate 64%nat Byte.x2a).
Proof. vm_compute. repeat split. Qed.

Lemma failed_fetch_run :
  let s := run [Call_initialize;
                Call_transcode UASTC RGBA 0 4 4 64 tt None one_block;
                Host_fetched (Throw (HostError "404"));
                Microtask;
                Call_transcode UASTC RGBA 0 4 4 64 tt None one_block]
             initial_state in
  trace s = [EvFetch default_WasmModuleURL; EvLoadFailed (HostError "404");
             EvFetch default_WasmModuleURL] /\
  promises s !! 1%nat = Some (Done (Rejected (HostError "404"))) /\
  binding s = Loading 2%nat Fetching.
Proof. vm_compute. repeat split. Qed.

(** The refused request: status 1, the promise of the call resolves with
    [null]. *)
Lemma transcode_nonzero_status_on_empty_level :
  fst (run_callback level_empty (VModule fill_module) (waiting))
    = Normal (VPixels None) /\
  promises (run_job (job_of level_empty) (waiting)) !! 1%nat
    = Some (Done (Fulfilled (VPixels None))).
Proof.
  apply (transcode_nonzero_status_resolves_null (job_of level_empty)
           (waiting)
           (snd (_prepareTranscoding 0 0 0 [] 4 (waiting)))
           fill_module [] (mkUint8Array 0%nat 0%nat 0%nat, Some (mkUint8Array 0%nat 0%nat 0%nat)) 1 []).
  - reflexivity.
  - vm_compute. reflexivity.
  - vm_compute. reflexivity.
  - vm_compute. reflexivity.
  - lia.
Defined.


(** Three requests on the initialised, unloaded transcoder. *)
Lemma concurrent_loads_on_ready :
  exists (p : PromiseId) (s1 : State) (stage : Stage),
    load_n 3%nat ready = (Normal (replicate 3%nat p), s1) /\
    promises ready !! p = None /\
    promises s1 !! p = Some (Pending []) /\
    binding s1 = Loading p stage /\
    trace s1 = trace ready ++ [match _wasmBinary ready with
                               | Some binary => EvInstantiate binary
                               | None => EvFetch (_modulePath ready)
                               end] /\
    forall (fetch : Completion bytes) (inst : Completion ModuleWrapper),
      promises (complete_load fetch inst s1) !! p
        = Some (Done (load_result (_wasmBinary ready) fetch inst)) /\
      trace (complete_load fetch inst s1)
        = trace ready ++ load_events (_wasmBinary ready) (_modulePath ready) fetch inst.
Proof.
  apply (concurrent_loads_share_one_load ready 2%nat). vm_compute. reflexivity.
Defined.

(** The 4x4 level gives 64 bytes. *)
Lemma transcode_result_byte_length_4x4 :
  Z.of_nat (byteLength (mkUint8Array 1%nat 0%nat 64%nat)) = 64 /\
  Z.of_nat (byteLength (mkUint8Array 1%nat 0%nat 64%nat)) = 4 * 4 * 4 /\
  length (view_bytes
            (heap (snd (transcode_callback 4 4 64 one_block (VModule fill_module) ready)))
            (mkUint8Array 1%nat 0%nat 64%nat))
    = byteLength (mkUint8Array 1%nat 0%nat 64%nat).
Proof.
  apply (transcode_result_byte_length fill_module 4 4 64 one_block ready
           (snd (transcode_callback 4 4 64 one_block (VModule fill_module) ready))
           (mkUint8Array 1%nat 0%nat 64%nat)).
  - exact fill_decode_keeps_memory_size.
  - vm_compute. reflexivity.
  - vm_compute. reflexivity.
Defined.



End OnTheExample.

(** * Part VII: the further properties on the concrete configuration and decoder *)

Section OnTheShaderExample.
Import ImageProcessing ImageProcessingShader ShaderExample.

(** A new configuration declares nothing. *)
Lemma plain_configuration_declares_nothing :
  PrepareUniforms curve_uniforms ["world"] (defines_of plain) = ["world"] /\
  PrepareSamplers ["diffuseSampler"] (defines_of plain) = ["diffuseSampler"].
Proof.
  apply (no_image_processing_declares_nothing curve_uniforms textures (this plain)
           new_ImageProcessingConfigurationDefines (defines_of plain)
           (applyByPostProcess (this plain)) ["world"] ["diffuseSampler"]).
  - vm_compute. reflexivity.
  - vm_compute. reflexivity.
Defined.

Lemma graded_configuration_only_appends :
  (exists more,
     PrepareUniforms curve_uniforms ["world"] (defines_of graded) = ["world"] ++ more) /\
  (exists more,
     PrepareSamplers ["diffuseSampler"] (defines_of graded) = ["diffuseSampler"] ++ more).
Proof.
  apply (PrepareUniforms_only_appends curve_uniforms ["world"] ["diffuseSampler"]
           (defines_of graded)).
  intros u. eexists. reflexivity.
Defined.

(** The configuration with vignette, dithering and colour grading: seven
    names are declared, and bound. *)
Lemma graded_configuration_binds_what_it_declares :
  let ks := added_calls screen (bind tangent mix textures (this graded) screen None) in
  (forall n, n ∈ PrepareUniforms (fun u => u) [] (defines_of graded) -> n ∈ bound_names ks) /\
  (forall n, n ∈ PrepareSamplers [] (defines_of graded) -> n ∈ bound_names ks) /\
  (COLORCURVES (defines_of graded) = true -> exists curves, ColorCurves_Bind curves ∈ ks).
Proof.
  apply (bind_covers_declared_uniforms tangent mix textures (this graded)
           new_ImageProcessingConfigurationDefines (defines_of graded)
           (applyByPostProcess (this graded)) screen None).
  vm_compute. reflexivity.
Defined.

Lemma graded_configuration_declares :
  PrepareUniforms (fun u => u) [] (defines_of graded)
    = ["colorTransformSettings"; "vInverseScreenSize"; "vignetteSettings1";
       "vignetteSettings2"; "ditherIntensity"] /\
  PrepareSamplers [] (defines_of graded) = ["txColorTransform"].
Proof. vm_compute. split; reflexivity. Qed.

(** The look-up texture is still loading: the configuration is not ready. *)
Lemma graded_configuration_is_not_ready :
  COLORGRADING (defines_of graded) = true /\
  exists texture,
    colorGradingTexture (this graded) = js_obj texture /\
    texture_isReady (textures texture) = false.
Proof.
  apply (not_ready_only_with_color_grading textures (this graded)
           new_ImageProcessingConfigurationDefines (defines_of graded)).
  - vm_compute. reflexivity.
  - vm_compute. reflexivity.
  - vm_compute. reflexivity.
Defined.

(** With the vignette on, "vignetteSettings1" is bound, and declared. *)
Lemma graded_configuration_binds_declared_vignette :
  "vignetteSettings1"
    ∈ PrepareUniforms (fun u => u) [] (defines_of graded)
      ++ PrepareSamplers [] (defines_of graded) \/
  "vignetteSettings1" ∈ ["exposureLinear"; "contrast"] \/
  (colorGradingEnabled (this graded) = false /\
   "vignetteSettings1" ∈ ["txColorTransform"; "colorTransformSettings"]).
Proof.
  apply (bind_binds_little_else tangent mix textures (this graded)
           new_ImageProcessingConfigurationDefines (defines_of graded) screen None
           "vignetteSettings1").
  - vm_compute. reflexivity.
  - vm_compute. reflexivity.
  - vm_compute. do 2 apply list_elem_of_further. apply list_elem_of_here.
Defined.

(** Exposure and contrast in either order; dithering switched on twice. *)
Lemma exposure_and_contrast_commute :
  this (assign (Set_exposure 2%float) (assign (Set_contrast 1.5%float) plain))
    = this (assign (Set_contrast 1.5%float) (assign (Set_exposure 2%float) plain)) /\
  length (notified (assign (Set_exposure 2%float) (assign (Set_contrast 1.5%float) plain)))
    = length (notified (assign (Set_contrast 1.5%float) (assign (Set_exposure 2%float) plain))).
Proof.
  apply (assignments_to_different_properties_commute
           (Set_exposure 2%float) (Set_contrast 1.5%float) plain).
  discriminate.
Defined.

Lemma dithering_enabled_twice :
  assign (Set_ditheringEnabled true) (assign (Set_ditheringEnabled true) plain)
    = assign (Set_ditheringEnabled true) plain.
Proof.
  apply (assigning_twice_is_assigning_once (Set_ditheringEnabled true) plain).
  reflexivity.
Defined.

End OnTheShaderExample.

Section OnTheDecoderExample.
Import KTX2 Example.

(** The 4x4 level is transcoded, then the 8x4 level: the 64 bytes of the
    first result are still there. *)
Lemma first_level_survives_second_level :
  view_bytes
    (heap (snd (transcode_callback 8 4 128 (replicate 32%nat Byte.x07)
                  (VModule fill_module)
                  (snd (transcode_callback 4 4 64 one_block (VModule fill_module) ready)))))
    (mkUint8Array 1%nat 0%nat 64%nat)
  = view_bytes
      (heap (snd (transcode_callback 4 4 64 one_block (VModule fill_module) ready)))
      (mkUint8Array 1%nat 0%nat 64%nat).
Proof.
  apply (earlier_result_survives_later_transcode fill_module 4 4 64 one_block ready
           (snd (transcode_callback 4 4 64 one_block (VModule fill_module) ready))
           (mkUint8Array 1%nat 0%nat 64%nat) 8 4 128 (replicate 32%nat Byte.x07)
           (VModule fill_module)).
  vm_compute. reflexivity.
Defined.

(** The trapping module: the call is rejected. *)
Lemma trap_rejects_the_call :
  promises (run_job (mkJob level_4x4 (Fulfilled (VModule trap_module)) 1%nat) waiting)
    !! job_derived (mkJob level_4x4 (Fulfilled (VModule trap_module)) 1%nat)
    = Some (Done (Rejected RuntimeError)) /\
  dom (heap (run_job (mkJob level_4x4 (Fulfilled (VModule trap_module)) 1%nat) waiting))
    = {[ wasmMemory waiting ]} ∪ dom (heap waiting).
Proof.
  apply (decode_exception_rejects_the_call
           (mkJob level_4x4 (Fulfilled (VModule trap_module)) 1%nat) waiting
           (snd (_prepareTranscoding 4 4 64 one_block 4 waiting))
           trap_module [] (mkUint8Array 0%nat 0%nat 16%nat, Some (mkUint8Array 0%nat 16%nat 64%nat))
           (prepared one_block 64%nat [])).
  - reflexivity.
  - vm_compute. reflexivity.
  - vm_compute. reflexivity.
  - vm_compute. reflexivity.
Defined.

(** Two calls while the module is fetched. *)
Lemma two_calls_while_loading :
  exists (q1 q2 : PromiseId) (s1 s2 : State),
    transcode UASTC RGBA 0 4 4 64 tt None one_block (snd (_loadModule ready))
      = (Normal q1, s1) /\
    transcode UASTC RGBA 1 8 4 128 tt None (replicate 32%nat Byte.x07) s1
      = (Normal q2, s2) /\
    q1 <> q2 /\
    microtasks (complete_load (Normal [Byte.x00]) (Normal fill_module) s2)
    = microtasks (snd (_loadModule ready))
      ++ map (fun r => mkJob (handler r) (Fulfilled (VModule fill_module)) (derived r)) []
      ++ [mkJob (TranscodeThen 4 4 64 one_block) (Fulfilled (VModule fill_module)) q1;
          mkJob (TranscodeThen 8 4 128 (replicate 32%nat Byte.x07))
            (Fulfilled (VModule fill_module)) q2].
Proof.
  apply (callbacks_are_queued_in_call_order (H := types) (snd (_loadModule ready)) 0%nat Fetching []
           UASTC UASTC RGBA RGBA 0 4 4 64 1 8 4 128 tt tt None None one_block
           (replicate 32%nat Byte.x07) [Byte.x00] fill_module).
  - vm_compute. reflexivity.
  - vm_compute. reflexivity.
Defined.

(** A binary assigned to the static member after [initialize()] is not
    seen: the call of [transcode] that follows still fetches the URL. *)
Lemma late_binary_is_not_used :
  _modulePath (run late_binary (snd (initialize initial_state)))
    = WasmModuleURL initial_state /\
  _wasmBinary (run late_binary (snd (initialize initial_state)))
    = WasmBinary initial_state.
Proof.
  apply (static_members_are_read_at_initialize initial_state late_binary).
  repeat constructor.
Defined.

End OnTheDecoderExample.
